(** * pro-persona: persona provisioning, visibility and the public listing

    A shallow embedding of the workflow code of the application
    (src/pages/SignUp.tsx, src/pages/CreatePersona.tsx, the account page,
    the public listing) and of the row-secured store declared by the SQL
    migration, together with the properties the specification states
    about them.

    Conventions.
    - A JavaScript string is a [string]: a sequence of code units below 256.
    - [null] and [undefined] are [None].
    - An [async] handler is a program of the monad [Prog]: a tree whose
      nodes are the remote calls it awaits (answered by the environment)
      and the user-interface effects it performs.
    - Timestamps are natural numbers. *)

From stdpp Require Import gmap strings list fin_maps pretty.

Local Open Scope string_scope.
Local Open Scope list_scope.

(** ** JavaScript helpers *)

(** Truthiness of a [string | null]: [null] and the empty string are falsy. *)
Definition truthy (v : option string) : bool :=
  match v with
  | None => false
  | Some s => negb (bool_decide (s = ""))
  end.

(** [a || b] on strings: [a] when it is truthy, [b] otherwise. *)
Definition or_else (a b : string) : string :=
  if truthy (Some a) then a else b.

(** A [string | null] inside a template literal. *)
Definition interpolate (v : option string) : string :=
  match v with
  | None => "null"
  | Some s => s
  end.

(** WhiteSpace and LineTerminator code units below 256:
    TAB, LF, VT, FF, CR, SP and NBSP. *)
Definition is_white_space (c : Ascii.ascii) : bool :=
  let n := Ascii.nat_of_ascii c in
  bool_decide (n = 9 ∨ n = 10 ∨ n = 11 ∨ n = 12 ∨ n = 13 ∨ n = 32 ∨ n = 160)%nat.

Fixpoint trimStart (s : string) : string :=
  match s with
  | EmptyString => EmptyString
  | String c s' => if is_white_space c then trimStart s' else s
  end.

Fixpoint trimEnd (s : string) : string :=
  match s with
  | EmptyString => EmptyString
  | String c s' =>
      match trimEnd s' with
      | EmptyString => if is_white_space c then EmptyString else String c EmptyString
      | t => String c t
      end
  end.

(** [String.prototype.trim]. *)
Definition trim (s : string) : string := trimEnd (trimStart s).

(** ** Interfaces of the components *)

(** The argument of [toast]. *)
Record Toast := {
  title : string;
  description : string;
  variant : option string;
}.

(** [interface Persona] of the account page. *)
Module Persona.
Record t := {
  id : string;
  is_public : bool;
  updated_at : nat;
  avatar_url : option string;
  conversation_link : option string;
}.
End Persona.

(** [interface PublicPersona] of the public listing. *)
Module PublicPersona.
Record t := {
  id : string;
  avatar_url : option string;
  agent_id : option string;
  conversation_link : string;
}.
End PublicPersona.

(** A row as returned by [.select('id, avatar_url, agent_id')]. *)
Module Listed.
Record t := {
  id : string;
  avatar_url : option string;
  agent_id : option string;
}.
End Listed.

(** The object given to [supabase.auth.signUp]. *)
Record SignUpCredentials := {
  cred_email : string;
  cred_password : string;
  cred_first_name : string;        (* options.data.first_name *)
  cred_last_name : string;         (* options.data.last_name *)
  cred_emailRedirectTo : string;
}.

(** The [body] given to the [create-agent] function. *)
Module CreateAgentBody.
Record t := {
  resume_text : string;
  first_name : string;
  last_name : string;
  elevenlabs_api_key : string;
}.
End CreateAgentBody.

(** The object given to [.from('profiles').update]. *)
Module ProfileUpdate.
Record t := {
  elevenlabs_agent_id : string;
  elevenlabs_agent_link : string;
}.
End ProfileUpdate.

(** The object given to [.from('personas').insert]; a column left out
    takes the column default of the table. *)
Module PersonaInsert.
Record t := {
  user_id : string;
  is_public : option bool;
  elevenlabs_api_key : option string;
  agent_id : option string;
  conversation_link : option string;
  avatar_url : option string;
}.
End PersonaInsert.

(** ** Answers of the remote services *)

(** An error object; the code reads its [message] only. *)
Record Error := { message : string }.

(** [{ data: { user, session }, error }] of [auth.signUp]. *)
Record AuthResponse := {
  auth_user : option string;       (* data.user.id, when data.user is not null *)
  auth_session : bool;             (* data.session is not null *)
  auth_error : option Error;
}.

(** [{ data, error }] of [functions.invoke]: either data or an error. *)
Inductive FunctionsResponse :=
| FunctionsSuccess (agent_id : string)      (* data = { agent_id }, error = null *)
| FunctionsFailure (error : Error).         (* data = null *)

(** [{ data }] of the [.single()] read of [first_name, last_name]. *)
Record ProfileNames := {
  names_first_name : option string;
  names_last_name : option string;
}.

(** [{ data, error }] of the listing read. *)
Record ListingResponse := {
  listing_data : option (list Listed.t);
  listing_error : option Error;
}.

(** ** Remote calls and user-interface effects *)

Inductive Remote :=
| auth_signUp (c : SignUpCredentials)
| functions_invoke (name : string) (body : CreateAgentBody.t)
| profiles_select_names (eq_id : string)
| profiles_update (patch : ProfileUpdate.t) (eq_id : string)
| personas_insert (row : PersonaInsert.t)
| personas_update_is_public (is_public : bool) (eq_id : string)
| personas_select_listing (eq_is_public : bool).

(** What the client gets back from each call. *)
Definition resp (o : Remote) : Type :=
  match o with
  | auth_signUp _ => AuthResponse
  | functions_invoke _ _ => FunctionsResponse
  | profiles_select_names _ => option ProfileNames
  | profiles_update _ _ => option Error
  | personas_insert _ => option Error
  | personas_update_is_public _ _ => option Error
  | personas_select_listing _ => ListingResponse
  end.

Inductive Ui :=
| preventDefault
| setErrors (errors : gmap string string)
| setIsLoading (b : bool)
| setLoading (b : bool)
| setSaving (b : bool)
| toast (t : Toast)
| navigate (to : string)
| navigate_later (to : string) (ms : nat)     (* setTimeout(() => navigate(to), ms) *)
| console_error (label : string) (e : Error)
| setPersonaOutput (status : string) (msg : string)
| setPersona (p : Persona.t)
| setPersonas (l : list PublicPersona.t).

(** ** The monad of handlers *)

Inductive Prog (A : Type) : Type :=
| Ret (a : A)
| Call (o : Remote) (k : resp o → Prog A)
| Do (u : Ui) (k : Prog A).
Arguments Ret {A} a.
Arguments Call {A} o k.
Arguments Do {A} u k.

Fixpoint bind {A B} (p : Prog A) (f : A → Prog B) : Prog B :=
  match p with
  | Ret a => f a
  | Call o k => Call o (λ x, bind (k x) f)
  | Do u k => Do u (bind k f)
  end.

#[global] Instance Prog_ret : MRet Prog := @Ret.
#[global] Instance Prog_bind : MBind Prog := λ A B f p, bind p f.

Definition await (o : Remote) : Prog (resp o) := Call o Ret.
Definition ui (u : Ui) : Prog unit := Do u (Ret tt).

(** One entry of the trace of a run: a remote call with its answer, or a
    user-interface effect. *)
Inductive Entry :=
| E_signUp (c : SignUpCredentials) (r : AuthResponse)
| E_invoke (name : string) (body : CreateAgentBody.t) (r : FunctionsResponse)
| E_profiles_select (eq_id : string) (r : option ProfileNames)
| E_profiles_update (patch : ProfileUpdate.t) (eq_id : string) (r : option Error)
| E_personas_insert (row : PersonaInsert.t) (r : option Error)
| E_personas_update (is_public : bool) (eq_id : string) (r : option Error)
| E_personas_select (eq_is_public : bool) (r : ListingResponse)
| E_ui (u : Ui).

Definition entry (o : Remote) : resp o → Entry :=
  match o with
  | auth_signUp c => E_signUp c
  | functions_invoke n b => E_invoke n b
  | profiles_select_names i => E_profiles_select i
  | profiles_update p i => E_profiles_update p i
  | personas_insert r => E_personas_insert r
  | personas_update_is_public b i => E_personas_update b i
  | personas_select_listing b => E_personas_select b
  end.

(** The remote call of a trace entry, without its answer. *)
Definition remote_of (e : Entry) : option Remote :=
  match e with
  | E_signUp c _ => Some (auth_signUp c)
  | E_invoke n b _ => Some (functions_invoke n b)
  | E_profiles_select i _ => Some (profiles_select_names i)
  | E_profiles_update p i _ => Some (profiles_update p i)
  | E_personas_insert r _ => Some (personas_insert r)
  | E_personas_update b i _ => Some (personas_update_is_public b i)
  | E_personas_select b _ => Some (personas_select_listing b)
  | E_ui _ => None
  end.

Definition ui_of (e : Entry) : option Ui :=
  match e with
  | E_ui u => Some u
  | _ => None
  end.

(** The network calls of a trace, in order. *)
Definition network (t : list Entry) : list Remote := omap remote_of t.

(** The user-interface effects of a trace, in order. *)
Definition effects (t : list Entry) : list Ui := omap ui_of t.

(** An environment answers each remote call from its state [W]. *)
Definition handler (W : Type) : Type := ∀ o : Remote, W → resp o * W.

Fixpoint run {W A} (h : handler W) (p : Prog A) (w : W) : list Entry * A * W :=
  match p with
  | Ret a => ([], a, w)
  | Call o k =>
      let r := h o w in
      let rest := run h (k r.1) r.2 in
      (entry o r.1 :: rest.1.1, rest.1.2, rest.2)
  | Do u k =>
      let rest := run h k w in
      (E_ui u :: rest.1.1, rest.1.2, rest.2)
  end.

Definition trace {W A} (h : handler W) (p : Prog A) (w : W) : list Entry :=
  (run h p w).1.1.

Definition world_after {W A} (h : handler W) (p : Prog A) (w : W) : W :=
  (run h p w).2.

(** ** The store: tables, policies and triggers of the migration *)

(** A cell of a result row. *)
Inductive Value :=
| uuid (s : string)
| text (s : option string)
| boolean (b : bool)
| timestamptz (n : nat).

(** [BEFORE UPDATE ... EXECUTE FUNCTION update_updated_at_column()] sets
    [NEW.updated_at = now()]; it is instantiated per table below. *)

(** [public.profiles], keyed by its primary key [id]. *)
Module profiles.
Record row := {
  first_name : option string;
  last_name : option string;
  elevenlabs_agent_id : option string;
  elevenlabs_agent_link : option string;
  created_at : nat;
  updated_at : nat;
}.

(** Policies: every one of them is [auth.uid() = id]. *)
Definition select_using (uid : option string) (id : string) : bool :=
  bool_decide (uid = Some id).
Definition insert_with_check (uid : option string) (id : string) : bool :=
  bool_decide (uid = Some id).
Definition update_using (uid : option string) (id : string) : bool :=
  bool_decide (uid = Some id).

Definition update_updated_at_column (now : nat) (new : row) : row :=
  {| first_name := first_name new; last_name := last_name new;
     elevenlabs_agent_id := elevenlabs_agent_id new;
     elevenlabs_agent_link := elevenlabs_agent_link new;
     created_at := created_at new; updated_at := now |}.

(** [handle_new_user()], fired after an insert on [auth.users]. *)
Definition handle_new_user (now : nat) (new_id : string)
    (meta_first_name meta_last_name : option string)
    (t : gmap string row) : gmap string row :=
  <[new_id := {| first_name := meta_first_name; last_name := meta_last_name;
                 elevenlabs_agent_id := None; elevenlabs_agent_link := None;
                 created_at := now; updated_at := now |}]> t.

(** [.select('first_name, last_name').eq('id', eq_id).single()]: the data
    is null unless exactly one row is visible; [id] is the key, so at most
    one is. *)
Definition select_names_single (uid : option string) (eq_id : string)
    (t : gmap string row) : option ProfileNames :=
  match t !! eq_id with
  | Some r =>
      if select_using uid eq_id
      then Some {| names_first_name := first_name r; names_last_name := last_name r |}
      else None
  | None => None
  end.

(** [.update({ elevenlabs_agent_id, elevenlabs_agent_link }).eq('id', eq_id)] *)
Definition update (uid : option string) (now : nat) (patch : ProfileUpdate.t)
    (eq_id : string) (t : gmap string row) : gmap string row :=
  map_imap (λ id r,
    Some (if bool_decide (id = eq_id) && update_using uid id
          then update_updated_at_column now
                 {| first_name := first_name r; last_name := last_name r;
                    elevenlabs_agent_id := Some (ProfileUpdate.elevenlabs_agent_id patch);
                    elevenlabs_agent_link := Some (ProfileUpdate.elevenlabs_agent_link patch);
                    created_at := created_at r; updated_at := updated_at r |}
          else r)) t.
End profiles.

(** [public.personas], keyed by its primary key [id]. *)
Module personas.
Record row := {
  user_id : string;
  is_public : bool;
  elevenlabs_api_key : option string;
  agent_id : option string;
  conversation_link : option string;
  avatar_url : option string;
  created_at : nat;
  updated_at : nat;
}.

Inductive column :=
| c_id | c_user_id | c_is_public | c_elevenlabs_api_key | c_agent_id
| c_conversation_link | c_avatar_url | c_created_at | c_updated_at.

Definition cell (c : column) (id : string) (r : row) : Value :=
  match c with
  | c_id => uuid id
  | c_user_id => uuid (user_id r)
  | c_is_public => boolean (is_public r)
  | c_elevenlabs_api_key => text (elevenlabs_api_key r)
  | c_agent_id => text (agent_id r)
  | c_conversation_link => text (conversation_link r)
  | c_avatar_url => text (avatar_url r)
  | c_created_at => timestamptz (created_at r)
  | c_updated_at => timestamptz (updated_at r)
  end.

(** [DEFAULT false] of the column [is_public]. *)
Definition is_public_default : bool := false.

(** "Users can view their own persona": [auth.uid() = user_id]. *)
Definition users_can_view_their_own_persona (uid : option string) (r : row) : bool :=
  bool_decide (uid = Some (user_id r)).

(** "Anyone can view public personas": [is_public = true]. *)
Definition anyone_can_view_public_personas (r : row) : bool :=
  bool_decide (is_public r = true).

(** The two SELECT policies are permissive: a row is visible when one of
    them holds. *)
Definition select_using (uid : option string) (r : row) : bool :=
  users_can_view_their_own_persona uid r || anyone_can_view_public_personas r.

(** "Users can insert their own persona". *)
Definition insert_with_check (uid : option string) (r : row) : bool :=
  bool_decide (uid = Some (user_id r)).

(** "Users can update their own persona". *)
Definition update_using (uid : option string) (r : row) : bool :=
  bool_decide (uid = Some (user_id r)).

(** "Users can delete their own persona". *)
Definition delete_using (uid : option string) (r : row) : bool :=
  bool_decide (uid = Some (user_id r)).

Definition update_updated_at_column (now : nat) (new : row) : row :=
  {| user_id := user_id new; is_public := is_public new;
     elevenlabs_api_key := elevenlabs_api_key new; agent_id := agent_id new;
     conversation_link := conversation_link new; avatar_url := avatar_url new;
     created_at := created_at new; updated_at := now |}.

(** The rows of the table a caller may read, with the filter of the query. *)
Definition visible (uid : option string) (where_ : string → row → bool)
    (t : gmap string row) : list (string * row) :=
  base.filter (λ kr, select_using uid kr.2 && where_ kr.1 kr.2 = true) (map_to_list t).

(** [SELECT cols FROM personas WHERE where_], under the policies: one list
    of cells per visible row, in the order of [cols]. *)
Definition select (uid : option string) (cols : list column)
    (where_ : string → row → bool) (t : gmap string row) : list (list Value) :=
  (λ kr, (λ c, cell c kr.1 kr.2) <$> cols) <$> visible uid where_ t.

(** [.select('id, avatar_url, agent_id').eq('is_public', b)] as the typed
    rows the client receives. *)
Definition select_listing (uid : option string) (b : bool)
    (t : gmap string row) : list Listed.t :=
  (λ kr, {| Listed.id := kr.1; Listed.avatar_url := avatar_url kr.2;
            Listed.agent_id := agent_id kr.2 |})
    <$> visible uid (λ _ r, bool_decide (is_public r = b)) t.

(** [.update({ is_public: b }).eq('id', eq_id)]: the rows that match the
    filter and pass the UPDATE policy get the new value, then the trigger. *)
Definition update_is_public (uid : option string) (now : nat) (b : bool)
    (eq_id : string) (t : gmap string row) : gmap string row :=
  map_imap (λ id r,
    Some (if bool_decide (id = eq_id) && update_using uid r
          then update_updated_at_column now
                 {| user_id := user_id r; is_public := b;
                    elevenlabs_api_key := elevenlabs_api_key r;
                    agent_id := agent_id r;
                    conversation_link := conversation_link r;
                    avatar_url := avatar_url r;
                    created_at := created_at r; updated_at := updated_at r |}
          else r)) t.

(** The row an insert builds: the given columns, and the column defaults
    for [id] (the generated [new_id]), [is_public] and the timestamps. *)
Definition new_row (now : nat) (v : PersonaInsert.t) : row :=
  {| user_id := PersonaInsert.user_id v;
     is_public := default is_public_default (PersonaInsert.is_public v);
     elevenlabs_api_key := PersonaInsert.elevenlabs_api_key v;
     agent_id := PersonaInsert.agent_id v;
     conversation_link := PersonaInsert.conversation_link v;
     avatar_url := PersonaInsert.avatar_url v;
     created_at := now; updated_at := now |}.

(** [.insert(v)]: refused when the INSERT policy, the reference to
    [auth.users] or the primary key is violated. *)
Definition insert (uid : option string) (now : nat) (new_id : string)
    (users : gset string) (v : PersonaInsert.t)
    (t : gmap string row) : Error + gmap string row :=
  let r := new_row now v in
  if negb (insert_with_check uid r) then
    inl {| message := "new row violates row-level security policy for table personas" |}
  else if negb (bool_decide (user_id r ∈ users)) then
    inl {| message := "insert on table personas violates foreign key constraint" |}
  else if bool_decide (is_Some (t !! new_id)) then
    inl {| message := "duplicate key value violates unique constraint" |}
  else inr (<[new_id := r]> t).
End personas.

(** ** The backend as one environment *)

(** The state the client talks to: the tables, the session of the client
    ([auth.uid()]), the clock behind [now()], the values [gen_random_uuid()]
    will produce, and the two external services. *)
Record Backend := {
  users : gset string;                                   (* ids of auth.users *)
  profiles_table : gmap string profiles.row;
  personas_table : gmap string personas.row;
  auth_uid : option string;
  clock : nat;
  gen_random_uuid : nat → string;
  uuid_count : nat;
  identity_provider : SignUpCredentials → AuthResponse;
  provisioner : string → CreateAgentBody.t → FunctionsResponse;
}.

Definition tick (w : Backend) : Backend :=
  {| users := users w; profiles_table := profiles_table w;
     personas_table := personas_table w; auth_uid := auth_uid w;
     clock := S (clock w); gen_random_uuid := gen_random_uuid w;
     uuid_count := uuid_count w; identity_provider := identity_provider w;
     provisioner := provisioner w |}.

Definition with_personas (t : gmap string personas.row) (w : Backend) : Backend :=
  {| users := users w; profiles_table := profiles_table w;
     personas_table := t; auth_uid := auth_uid w;
     clock := clock w; gen_random_uuid := gen_random_uuid w;
     uuid_count := uuid_count w; identity_provider := identity_provider w;
     provisioner := provisioner w |}.

Definition with_profiles (t : gmap string profiles.row) (w : Backend) : Backend :=
  {| users := users w; profiles_table := t;
     personas_table := personas_table w; auth_uid := auth_uid w;
     clock := clock w; gen_random_uuid := gen_random_uuid w;
     uuid_count := uuid_count w; identity_provider := identity_provider w;
     provisioner := provisioner w |}.

Definition next_uuid (w : Backend) : Backend :=
  {| users := users w; profiles_table := profiles_table w;
     personas_table := personas_table w; auth_uid := auth_uid w;
     clock := clock w; gen_random_uuid := gen_random_uuid w;
     uuid_count := S (uuid_count w); identity_provider := identity_provider w;
     provisioner := provisioner w |}.

(** Modelled from the spec: the Identity Provider, which is not part of the
    sources. It "creates an authenticated user record": when it answers with
    a user and no error, that user is a row of [auth.users] from then on (a
    new row fires [handle_new_user]), and the client holds its session when
    the answer carries one. *)
Definition signUp (c : SignUpCredentials) (w : Backend) : AuthResponse * Backend :=
  let r := identity_provider w c in
  match auth_error r, auth_user r with
  | None, Some u =>
      (r, {| users := {[u]} ∪ users w;
             profiles_table :=
               if bool_decide (u ∈ users w) then profiles_table w
               else profiles.handle_new_user (clock w) u
                      (Some (cred_first_name c)) (Some (cred_last_name c))
                      (profiles_table w);
             personas_table := personas_table w;
             auth_uid := if auth_session r then Some u else auth_uid w;
             clock := clock w; gen_random_uuid := gen_random_uuid w;
             uuid_count := uuid_count w;
             identity_provider := identity_provider w;
             provisioner := provisioner w |})
  | _, _ => (r, w)
  end.

(** Modelled from the spec: the Voice Agent Provisioner ([create-agent]),
    which is not part of the sources: "given résumé text and an API key,
    returns a remote agent identifier" or an error; it does not write the
    store. *)
Definition invoke (name : string) (body : CreateAgentBody.t) (w : Backend)
    : FunctionsResponse * Backend :=
  (provisioner w name body, w).

(** The store answers each call of the client; the clock advances with
    every call. *)
Definition backend : handler Backend := λ o,
  match o return Backend → resp o * Backend with
  | auth_signUp c => λ w,
      let '(r, w1) := signUp c w in (r, tick w1)
  | functions_invoke name body => λ w,
      let '(r, w1) := invoke name body w in (r, tick w1)
  | profiles_select_names eq_id => λ w,
      (profiles.select_names_single (auth_uid w) eq_id (profiles_table w), tick w)
  | profiles_update patch eq_id => λ w,
      (None,
       tick (with_profiles
               (profiles.update (auth_uid w) (clock w) patch eq_id (profiles_table w)) w))
  | personas_insert v => λ w,
      match personas.insert (auth_uid w) (clock w)
              (gen_random_uuid w (uuid_count w)) (users w) v (personas_table w) with
      | inl e => (Some e, tick (next_uuid w))
      | inr t => (None, tick (next_uuid (with_personas t w)))
      end
  | personas_update_is_public b eq_id => λ w,
      (None,
       tick (with_personas
               (personas.update_is_public (auth_uid w) (clock w) b eq_id
                  (personas_table w)) w))
  | personas_select_listing b => λ w,
      ({| listing_data := Some (personas.select_listing (auth_uid w) b (personas_table w));
          listing_error := None |}, tick w)
  end.

(** ** src/pages/SignUp.tsx *)

Module SignUp.

(** One issue of a failed [safeParse]: [path[0]] and [message]. *)
Record ZodIssue := {
  path : string;
  issue_message : string;
}.

(** The values of the form the submit handler reads. *)
Record State := {
  email : string;
  password : string;
  firstName : string;
  lastName : string;
  resumeText : string;
  isPublic : string;
  elevenLabsApiKey : string;
}.

(** The initial values given to [useState]. *)
Definition initial : State :=
  {| email := ""; password := ""; firstName := ""; lastName := "";
     resumeText := ""; isPublic := "public"; elevenLabsApiKey := "" |}.

(** [onValueChange={setIsPublic}] and the [onChange] of the inputs. *)
Definition setIsPublic (v : string) (s : State) : State :=
  {| email := email s; password := password s; firstName := firstName s;
     lastName := lastName s; resumeText := resumeText s; isPublic := v;
     elevenLabsApiKey := elevenLabsApiKey s |}.

(** [`https://api.dicebear.com/7.x/pixel-art/svg?seed=${user.id}&scale=100`] *)
Definition avatarUrl (user_id : string) : string :=
  "https://api.dicebear.com/7.x/pixel-art/svg?seed=" +:+ user_id +:+ "&scale=100".

(** [`https://elevenlabs.io/app/talk-to?agent_id=${agentData.agent_id}`] *)
Definition conversationLink (agent_id : string) : string :=
  "https://elevenlabs.io/app/talk-to?agent_id=" +:+ agent_id.

Section Form.

(** The email check of the validation library, which is not part of the
    sources. *)
Variable is_email : string → bool.

(** [window.location.origin] *)
Variable origin : string.

(** [signUpSchema.safeParse({ email, password, firstName, lastName })]: the
    issues found, in the order of the fields of the schema; the parse
    succeeds when there is none. *)
Definition signUpSchema (email password firstName lastName : string) : list ZodIssue :=
  (if is_email email then []
   else [{| path := "email"; issue_message := "Please enter a valid email address" |}]) ++
  (if (String.length password <? 8)%nat
   then [{| path := "password"; issue_message := "Password must be at least 8 characters" |}]
   else []) ++
  (if (String.length firstName <? 1)%nat
   then [{| path := "firstName"; issue_message := "First name is required" |}]
   else []) ++
  (if (String.length lastName <? 1)%nat
   then [{| path := "lastName"; issue_message := "Last name is required" |}]
   else []).

Definition success (issues : list ZodIssue) : bool :=
  match issues with
  | [] => true
  | _ => false
  end.

(** [result.error.errors.forEach(err => fieldErrors[err.path[0]] = err.message)] *)
Definition fieldErrors (issues : list ZodIssue) : gmap string string :=
  foldl (λ acc err, <[path err := issue_message err]> acc) ∅ issues.

Definition credentials (s : State) : SignUpCredentials :=
  {| cred_email := email s; cred_password := password s;
     cred_first_name := firstName s; cred_last_name := lastName s;
     cred_emailRedirectTo := origin +:+ "/" |}.

Definition agent_body (s : State) : CreateAgentBody.t :=
  {| CreateAgentBody.resume_text := resumeText s;
     CreateAgentBody.first_name := firstName s;
     CreateAgentBody.last_name := lastName s;
     CreateAgentBody.elevenlabs_api_key := elevenLabsApiKey s |}.

Definition persona_row (s : State) (user_id agent_id : string) : PersonaInsert.t :=
  {| PersonaInsert.user_id := user_id;
     PersonaInsert.is_public := Some (bool_decide (isPublic s = "public"));
     PersonaInsert.elevenlabs_api_key := Some (elevenLabsApiKey s);
     PersonaInsert.agent_id := Some agent_id;
     PersonaInsert.conversation_link := Some (conversationLink agent_id);
     PersonaInsert.avatar_url := Some (avatarUrl user_id) |}.

(** The [try] block of [handleSubmit]; [inl error] is a thrown error. *)
Definition create_persona (s : State) (user_id : string) : Prog (Error + unit) :=
  agent ← await (functions_invoke "create-agent" (agent_body s));
  match agent with
  | FunctionsFailure agentError => mret (inl agentError)
  | FunctionsSuccess agent_id =>
      profileUpdateError ← await (profiles_update
        {| ProfileUpdate.elevenlabs_agent_id := agent_id;
           ProfileUpdate.elevenlabs_agent_link := conversationLink agent_id |} user_id);
      match profileUpdateError with
      | Some e => ui (console_error "Profile update error:" e)
      | None => mret tt
      end;;
      insertError ← await (personas_insert (persona_row s user_id agent_id));
      match insertError with
      | Some e => mret (inl e)
      | None => mret (inr tt)
      end
  end.

(** The [description] of the toast of a failed [auth.signUp]. *)
Definition sign_up_failed (authError : Error) : string :=
  if bool_decide (message authError = "User already registered")
  then "An account with this email already exists. Please sign in."
  else message authError.

(** What [handleSubmit] does once the form has passed the local checks. *)
Definition register (s : State) : Prog unit :=
  ui (setIsLoading true);;
  r ← await (auth_signUp (credentials s));
  match auth_error r with
  | Some authError =>
      ui (setIsLoading false);;
      ui (toast {| title := "Sign up failed";
                   description := sign_up_failed authError;
                   variant := Some "destructive" |})
  | None =>
      match auth_user r with
      | None =>
          ui (setIsLoading false);;
          ui (toast {| title := "Check your email";
                       description := "Please verify your email to complete registration.";
                       variant := None |});;
          ui (navigate "/")
      | Some user_id =>
          outcome ← create_persona s user_id;
          match outcome with
          | inl error =>
              ui (setIsLoading false);;
              ui (toast {| title := "Error Creating Persona";
                           description := or_else (message error)
                                            "An unexpected error occurred.";
                           variant := Some "destructive" |})
          | inr _ =>
              ui (setIsLoading false);;
              ui (toast {| title := "Account created!";
                           description := "Your persona has been set up successfully.";
                           variant := None |});;
              ui (navigate "/account")
          end
      end
  end.

Definition handleSubmit (s : State) : Prog unit :=
  ui preventDefault;;
  ui (setErrors ∅);;
  let result := signUpSchema (email s) (password s) (firstName s) (lastName s) in
  if negb (success result) then
    ui (setErrors (fieldErrors result))
  else if negb (truthy (Some (trim (resumeText s)))) then
    ui (toast {| title := "Resume Required";
                 description := "Please paste your resume or upload a document.";
                 variant := Some "destructive" |})
  else if negb (truthy (Some (elevenLabsApiKey s))) then
    ui (toast {| title := "API Key Required";
                 description := "Please provide your ElevenLabs API key.";
                 variant := Some "destructive" |})
  else register s.

(** The [errors] of the form after a run: the argument of the last
    [setErrors], the initial value being the empty object. *)
Definition errors_after (t : list Entry) : gmap string string :=
  foldl (λ acc u, match u with setErrors m => m | _ => acc end) ∅ (effects t).

(** The structural constraints of the specification: a submission violates
    them when its email is not shaped as an email, its password has fewer
    than 8 characters, a name is empty, the trimmed résumé is empty or the
    API key is empty. *)
Definition violates_constraints (s : State) : bool :=
  negb (is_email (email s))
  || (String.length (password s) <? 8)%nat
  || bool_decide (firstName s = "")
  || bool_decide (lastName s = "")
  || bool_decide (trim (resumeText s) = "")
  || bool_decide (elevenLabsApiKey s = "").

End Form.
End SignUp.

(** ** src/pages/CreatePersona.tsx *)

Module CreatePersona.

(** The values the submit handler reads: the form, and the [user] of the
    session ([None] when nobody is signed in). *)
Record State := {
  resumeText : string;
  isPublic : string;
  elevenLabsApiKey : string;
  user : option string;
}.

(** The initial values given to [useState], for the session user [u]. *)
Definition initial (u : option string) : State :=
  {| resumeText := ""; isPublic := "private"; elevenLabsApiKey := ""; user := u |}.

Definition setResumeText (v : string) (s : State) : State :=
  {| resumeText := v; isPublic := isPublic s;
     elevenLabsApiKey := elevenLabsApiKey s; user := user s |}.

Definition setElevenLabsApiKey (v : string) (s : State) : State :=
  {| resumeText := resumeText s; isPublic := isPublic s;
     elevenLabsApiKey := v; user := user s |}.

Definition setIsPublic (v : string) (s : State) : State :=
  {| resumeText := resumeText s; isPublic := v;
     elevenLabsApiKey := elevenLabsApiKey s; user := user s |}.

(** [`https://api.dicebear.com/7.x/pixel-art/svg?seed=${user.id}&scale=100`] *)
Definition avatarUrl (user_id : string) : string :=
  "https://api.dicebear.com/7.x/pixel-art/svg?seed=" +:+ user_id +:+ "&scale=100".

(** [`https://elevenlabs.io/app/talk-to?agent_id=${agentData.agent_id}`] *)
Definition conversationLink (agent_id : string) : string :=
  "https://elevenlabs.io/app/talk-to?agent_id=" +:+ agent_id.

Definition agent_body (s : State) (first_name last_name : string) : CreateAgentBody.t :=
  {| CreateAgentBody.resume_text := resumeText s;
     CreateAgentBody.first_name := first_name;
     CreateAgentBody.last_name := last_name;
     CreateAgentBody.elevenlabs_api_key := elevenLabsApiKey s |}.

Definition persona_row (s : State) (user_id agent_id : string) : PersonaInsert.t :=
  {| PersonaInsert.user_id := user_id;
     PersonaInsert.is_public := Some (bool_decide (isPublic s = "public"));
     PersonaInsert.elevenlabs_api_key := Some (elevenLabsApiKey s);
     PersonaInsert.agent_id := Some agent_id;
     PersonaInsert.conversation_link := Some (conversationLink agent_id);
     PersonaInsert.avatar_url := Some (avatarUrl user_id) |}.

(** [profile?.first_name] and [profile?.last_name] are both truthy. *)
Definition has_names (profile : option ProfileNames) : bool :=
  truthy (profile ≫= names_first_name) && truthy (profile ≫= names_last_name).

Definition profile_incomplete : Error :=
  {| message := "Please ensure your profile has a first and last name." |}.

(** What the [try] block does once the agent exists. *)
Definition store_persona (s : State) (user_id agent_id : string) : Prog (Error + unit) :=
  insertError ← await (personas_insert (persona_row s user_id agent_id));
  match insertError with
  | Some e => mret (inl e)
  | None =>
      await (profiles_update
        {| ProfileUpdate.elevenlabs_agent_id := agent_id;
           ProfileUpdate.elevenlabs_agent_link := conversationLink agent_id |} user_id);;
      ui (setPersonaOutput "success" "Persona created successfully! Redirecting...");;
      ui (toast {| title := "Success!"; description := "Your persona is ready.";
                   variant := None |});;
      ui (navigate_later "/account" 2000);;
      mret (inr tt)
  end.

(** The [try] block of [handleSubmit]; [inl error] is a thrown error. *)
Definition create_persona (s : State) (user_id : string) : Prog (Error + unit) :=
  profile ← await (profiles_select_names user_id);
  match profile ≫= names_first_name, profile ≫= names_last_name with
  | Some first_name, Some last_name =>
      if negb (truthy (Some first_name)) || negb (truthy (Some last_name))
      then mret (inl profile_incomplete)
      else
        agent ← await (functions_invoke "create-agent" (agent_body s first_name last_name));
        match agent with
        | FunctionsFailure agentError => mret (inl agentError)
        | FunctionsSuccess agent_id => store_persona s user_id agent_id
        end
  | _, _ => mret (inl profile_incomplete)
  end.

Definition handleSubmit (s : State) : Prog unit :=
  ui preventDefault;;
  if negb (truthy (Some (trim (resumeText s)))) then
    ui (toast {| title := "Resume Required";
                 description := "Please upload a resume or paste text.";
                 variant := Some "destructive" |})
  else if negb (truthy (Some (trim (elevenLabsApiKey s)))) then
    ui (toast {| title := "API Key Required";
                 description := "Please provide your ElevenLabs API key.";
                 variant := Some "destructive" |})
  else
    match user s with
    | None =>
        ui (toast {| title := "Not Authenticated";
                     description := "Please sign in to create a persona.";
                     variant := Some "destructive" |})
    | Some user_id =>
        ui (setIsLoading true);;
        ui (setPersonaOutput "idle" "");;
        outcome ← create_persona s user_id;
        match outcome with
        | inl error =>
            ui (console_error "Error:" error);;
            ui (setPersonaOutput "error" (message error));;
            ui (toast {| title := "Error"; description := message error;
                         variant := Some "destructive" |})
        | inr _ => mret tt
        end;;
        ui (setIsLoading false)
    end.

End CreatePersona.

(** ** The account page: the visibility toggle *)

Module Account.

Record State := {
  persona : option Persona.t;
  visibility : string;
  saving : bool;
}.

(** [onValueChange={setVisibility}] *)
Definition setVisibility (v : string) (s : State) : State :=
  {| persona := persona s; visibility := v; saving := saving s |}.

Definition handleVisibilitySave (s : State) : Prog unit :=
  match persona s with
  | None => mret tt
  | Some persona =>
      ui (setSaving true);;
      error ← await (personas_update_is_public
                       (bool_decide (visibility s = "public")) (Persona.id persona));
      ui (setSaving false);;
      match error with
      | Some _ =>
          ui (toast {| title := "Error"; description := "Could not update visibility.";
                       variant := Some "destructive" |})
      | None =>
          ui (toast {| title := "Saved"; description := "Visibility settings updated.";
                       variant := None |});;
          ui (setPersona
                {| Persona.id := Persona.id persona;
                   Persona.is_public := bool_decide (visibility s = "public");
                   Persona.updated_at := Persona.updated_at persona;
                   Persona.avatar_url := Persona.avatar_url persona;
                   Persona.conversation_link := Persona.conversation_link persona |})
      end
  end.

(** The state setters of the component applied to its state. *)
Definition apply (s : State) (u : Ui) : State :=
  match u with
  | setSaving b => {| persona := persona s; visibility := visibility s; saving := b |}
  | setPersona p => {| persona := Some p; visibility := visibility s; saving := saving s |}
  | _ => s
  end.

(** The state displayed after the effects of a trace. *)
Definition displayed (s : State) (t : list Entry) : State :=
  foldl apply s (effects t).

(** The value of the radio group for a visibility. *)
Definition selection (b : bool) : string := if b then "public" else "private".

(** The user selects [v] and saves, against the backend: the state
    displayed and the backend afterwards. *)
Definition save (v : string) (sw : State * Backend) : State * Backend :=
  let s := setVisibility v sw.1 in
  (displayed s (trace backend (handleVisibilitySave s) sw.2),
   world_after backend (handleVisibilitySave s) sw.2).

End Account.

(** ** The public listing *)

Module PublicPersonas.

Record State := {
  personas : list PublicPersona.t;
  loading : bool;
}.

Definition initial : State := {| personas := []; loading := true |}.

(** [(data || []).filter(p => p.agent_id).map(p => ({ ... }))] *)
Definition formattedPersonas (data : option (list Listed.t)) : list PublicPersona.t :=
  map (λ p,
         {| PublicPersona.id := Listed.id p;
            PublicPersona.avatar_url := Listed.avatar_url p;
            PublicPersona.agent_id := Listed.agent_id p;
            PublicPersona.conversation_link :=
              "https://elevenlabs.io/app/talk-to?agent_id=" +:+ interpolate (Listed.agent_id p) |})
      (List.filter (λ p, truthy (Listed.agent_id p)) (default [] data)).

Definition fetchPublicPersonas : Prog unit :=
  ui (setLoading true);;
  r ← await (personas_select_listing true);
  match listing_error r with
  | Some error =>
      ui (console_error "Error fetching public personas:" error);;
      ui (toast {| title := "Error"; description := "Could not fetch public personas.";
                   variant := Some "destructive" |});;
      ui (setPersonas [])
  | None => ui (setPersonas (formattedPersonas (listing_data r)))
  end;;
  ui (setLoading false).

Definition apply (s : State) (u : Ui) : State :=
  match u with
  | setLoading b => {| personas := personas s; loading := b |}
  | setPersonas l => {| personas := l; loading := loading s |}
  | _ => s
  end.

Definition displayed (s : State) (t : list Entry) : State :=
  foldl apply s (effects t).

(** What the component renders. *)
Inductive View :=
| Spinner
| NoPublicPersonasYet
| Cards (l : list PublicPersona.t).

Definition render (s : State) : View :=
  if loading s then Spinner
  else match personas s with
       | [] => NoPublicPersonasYet
       | l => Cards l
       end.

End PublicPersonas.


(** ** Concrete environments and inputs for the worked examples *)

Module Examples.

(** A stand-in for the email check of the validation library: a character
    [@] with something before it. *)
Fixpoint has_at (s : string) : bool :=
  match s with
  | EmptyString => false
  | String _ s' =>
      match s' with
      | String c _ => if Ascii.eqb c (Ascii.ascii_of_nat 64) then true else has_at s'
      | EmptyString => false
      end
  end.

Definition origin : string := "https://pro-persona.example".

(** A client whose calls all fail with the given error. *)
Definition failing (e : Error) : handler unit := λ o,
  match o return unit → resp o * unit with
  | auth_signUp _ => λ w,
      ({| auth_user := None; auth_session := false; auth_error := Some e |}, w)
  | functions_invoke _ _ => λ w, (FunctionsFailure e, w)
  | profiles_select_names _ => λ w, (None, w)
  | profiles_update _ _ => λ w, (Some e, w)
  | personas_insert _ => λ w, (Some e, w)
  | personas_update_is_public _ _ => λ w, (Some e, w)
  | personas_select_listing _ => λ w,
      ({| listing_data := None; listing_error := Some e |}, w)
  end.

Definition offline : handler unit := failing {| message := "Failed to fetch" |}.

(** A filled sign-up form, visibility left as it was. *)
Definition ada : SignUp.State :=
  {| SignUp.email := "ada@example.com"; SignUp.password := "analytical";
     SignUp.firstName := "Ada"; SignUp.lastName := "Lovelace";
     SignUp.resumeText := "Mathematician. Notes on the Analytical Engine.";
     SignUp.isPublic := SignUp.isPublic SignUp.initial;
     SignUp.elevenLabsApiKey := "sk_ada" |}.

(** The same form with a résumé of blanks only. *)
Definition ada_blank_resume : SignUp.State :=
  {| SignUp.email := "ada@example.com"; SignUp.password := "analytical";
     SignUp.firstName := "Ada"; SignUp.lastName := "Lovelace";
     SignUp.resumeText := "   ";
     SignUp.isPublic := "public";
     SignUp.elevenLabsApiKey := "sk_ada" |}.

(** The same form with a password of seven characters. *)
Definition ada_short_password : SignUp.State :=
  {| SignUp.email := "ada@example.com"; SignUp.password := "engine7";
     SignUp.firstName := "Ada"; SignUp.lastName := "Lovelace";
     SignUp.resumeText := "Mathematician.";
     SignUp.isPublic := "public";
     SignUp.elevenLabsApiKey := "sk_ada" |}.

(** An identity provider that registers everybody as [u], signed in. *)
Definition accepting (u : string) : SignUpCredentials → AuthResponse :=
  λ _, {| auth_user := Some u; auth_session := true; auth_error := None |}.

(** A provisioner that always returns the agent [a]. *)
Definition agent (a : string) : string → CreateAgentBody.t → FunctionsResponse :=
  λ _ _, FunctionsSuccess a.

(** A provisioner that refuses the API key. *)
Definition invalid_key : string → CreateAgentBody.t → FunctionsResponse :=
  λ _ _, FunctionsFailure {| message := "Invalid API key" |}.

(** A fresh backend with the two services given. *)
Definition fresh (idp : SignUpCredentials → AuthResponse)
    (prov : string → CreateAgentBody.t → FunctionsResponse) : Backend :=
  {| users := ∅; profiles_table := ∅; personas_table := ∅; auth_uid := None;
     clock := 1000; gen_random_uuid := λ n, "persona-" +:+ pretty n; uuid_count := 0;
     identity_provider := idp; provisioner := prov |}.

(** A backend on which Ada is registered and signed in, with her profile
    and no persona yet. *)
Definition ada_signed_in : Backend :=
  {| users := {["u1"]};
     profiles_table :=
       {["u1" := {| profiles.first_name := Some "Ada"; profiles.last_name := Some "Lovelace";
                    profiles.elevenlabs_agent_id := None;
                    profiles.elevenlabs_agent_link := None;
                    profiles.created_at := 900; profiles.updated_at := 900 |}]};
     personas_table := ∅; auth_uid := Some "u1";
     clock := 1000; gen_random_uuid := λ n, "persona-" +:+ pretty n; uuid_count := 0;
     identity_provider := accepting "u1"; provisioner := agent "abc123" |}.

(** The create-persona form filled by Ada, visibility left as it was. *)
Definition ada_persona_form : CreatePersona.State :=
  CreatePersona.setElevenLabsApiKey "sk_ada"
    (CreatePersona.setResumeText "Mathematician. Notes on the Analytical Engine."
       (CreatePersona.initial (Some "u1"))).

(** Ada's persona as stored, private. *)
Definition ada_row : personas.row :=
  {| personas.user_id := "u1"; personas.is_public := false;
     personas.elevenlabs_api_key := Some "sk_ada";
     personas.agent_id := Some "abc123";
     personas.conversation_link := Some "https://elevenlabs.io/app/talk-to?agent_id=abc123";
     personas.avatar_url := Some "https://api.dicebear.com/7.x/pixel-art/svg?seed=u1&scale=100";
     personas.created_at := 950; personas.updated_at := 950 |}.

(** The persona of somebody else, public. *)
Definition grace_row : personas.row :=
  {| personas.user_id := "u2"; personas.is_public := true;
     personas.elevenlabs_api_key := Some "sk_grace";
     personas.agent_id := Some "def456";
     personas.conversation_link := Some "https://elevenlabs.io/app/talk-to?agent_id=def456";
     personas.avatar_url := Some "https://api.dicebear.com/7.x/pixel-art/svg?seed=u2&scale=100";
     personas.created_at := 960; personas.updated_at := 960 |}.

Definition two_personas : gmap string personas.row :=
  {["p1" := ada_row; "p2" := grace_row]}.

(** Ada signed in, with the two personas stored. *)
Definition ada_with_persona : Backend :=
  {| users := {["u1"; "u2"]};
     profiles_table := profiles_table ada_signed_in;
     personas_table := two_personas; auth_uid := Some "u1";
     clock := 1000; gen_random_uuid := λ n, "persona-" +:+ pretty n; uuid_count := 0;
     identity_provider := accepting "u1"; provisioner := agent "abc123" |}.

(** The account page of Ada once her persona is loaded. *)
Definition ada_account : Account.State :=
  {| Account.persona :=
       Some {| Persona.id := "p1"; Persona.is_public := false; Persona.updated_at := 950;
               Persona.avatar_url := personas.avatar_url ada_row;
               Persona.conversation_link := personas.conversation_link ada_row |};
     Account.visibility := "private"; Account.saving := false |}.

(** A client whose listing read returns the given rows (and whose other
    calls fail). *)
Definition listing (rows : list Listed.t) : handler unit := λ o,
  match o return unit → resp o * unit with
  | personas_select_listing _ => λ w,
      ({| listing_data := Some rows; listing_error := None |}, w)
  | o' => failing {| message := "Failed to fetch" |} o'
  end.

(** Two fetched rows: one with an empty agent id, one with none. *)
Definition blank_agent_rows : list Listed.t :=
  [{| Listed.id := "p1"; Listed.avatar_url := None; Listed.agent_id := Some "" |};
   {| Listed.id := "p2"; Listed.avatar_url := None; Listed.agent_id := None |}].

End Examples.

(** ** Further state of the forms *)

(** The [isLoading] of a form after a run: the argument of the last
    [setIsLoading], the initial value being [false]. *)
Definition isLoading_after (t : list Entry) : bool :=
  foldl (λ acc u, match u with setIsLoading b => b | _ => acc end) false (effects t).

(** A string made of white space only (the empty string included). *)
Fixpoint blank (s : string) : bool :=
  match s with
  | EmptyString => true
  | String c s' => is_white_space c && blank s'
  end.

(** ** src/pages/SignUp.tsx: the session effect of the page *)

Module SignUpPage.

(** The callback given to [useEffect]: it runs when the page is mounted and
    whenever the [session] of [useAuth] changes, with that [session]
    ([true] when there is one). *)
Definition sessionEffect (session : bool) : Prog unit :=
  if session then ui (navigate "/account") else mret tt.

End SignUpPage.

(** ** Further environments and inputs for the worked examples *)

Module MoreExamples.

(** An identity provider that answers without a user and without an error. *)
Definition pending : SignUpCredentials → AuthResponse :=
  λ _, {| auth_user := None; auth_session := false; auth_error := None |}.

(** A provisioner that fails without a message. *)
Definition silent_failure : string → CreateAgentBody.t → FunctionsResponse :=
  λ _ _, FunctionsFailure {| message := "" |}.

(** A client for which everything succeeds but the profile update. *)
Definition profile_update_fails : handler unit := λ o,
  match o return unit → resp o * unit with
  | auth_signUp _ => λ w,
      ({| auth_user := Some "u1"; auth_session := true; auth_error := None |}, w)
  | functions_invoke _ _ => λ w, (FunctionsSuccess "abc123", w)
  | profiles_select_names _ => λ w,
      (Some {| names_first_name := Some "Ada"; names_last_name := Some "Lovelace" |}, w)
  | profiles_update _ _ => λ w, (Some {| message := "permission denied" |}, w)
  | personas_insert _ => λ w, (None, w)
  | personas_update_is_public _ _ => λ w, (None, w)
  | personas_select_listing _ => λ w,
      ({| listing_data := Some []; listing_error := None |}, w)
  end.

End MoreExamples.
(** * Properties *)

(** ** Runs *)

Lemma trace_Ret {W A} (h : handler W) (a : A) w : trace h (Ret a) w = [].
Proof. reflexivity. Qed.

Lemma trace_Do {W A} (h : handler W) u (k : Prog A) w :
  trace h (Do u k) w = E_ui u :: trace h k w.
Proof. reflexivity. Qed.

Lemma trace_Call {W A} (h : handler W) o (k : resp o → Prog A) w :
  trace h (Call o k) w = entry o (h o w).1 :: trace h (k (h o w).1) (h o w).2.
Proof. reflexivity. Qed.

Lemma world_after_Ret {W A} (h : handler W) (a : A) w : world_after h (Ret a) w = w.
Proof. reflexivity. Qed.

Lemma world_after_Do {W A} (h : handler W) u (k : Prog A) w :
  world_after h (Do u k) w = world_after h k w.
Proof. reflexivity. Qed.

Lemma world_after_Call {W A} (h : handler W) o (k : resp o → Prog A) w :
  world_after h (Call o k) w = world_after h (k (h o w).1) (h o w).2.
Proof. reflexivity. Qed.

(** A run of [p ≫= f] is a run of [p] followed by a run of [f]. *)
Lemma run_bind {W A B} (h : handler W) (p : Prog A) (f : A → Prog B) w :
  run h (p ≫= f) w =
  let r1 := run h p w in
  let r2 := run h (f r1.1.2) r1.2 in
  (r1.1.1 ++ r2.1.1, r2.1.2, r2.2).
Proof.
  revert w. induction p as [a | o k IH | u k IH]; intros w.
  - cbn. by destruct (run h (f a) w) as [[??]?].
  - cbn. unfold mbind, Prog_bind in IH. by rewrite IH.
  - cbn. unfold mbind, Prog_bind in IH. by rewrite IH.
Qed.

Lemma network_app t1 t2 : network (t1 ++ t2) = network t1 ++ network t2.
Proof. apply omap_app. Qed.

Lemma effects_app t1 t2 : effects (t1 ++ t2) = effects t1 ++ effects t2.
Proof. apply omap_app. Qed.

(** The user-interface effects are performed by the client alone: a trace
    without remote calls leaves the environment as it was. *)
Lemma no_network_same_world {W A} (h : handler W) (p : Prog A) w :
  network (trace h p w) = [] → world_after h p w = w.
Proof.
  revert w. induction p as [a | o k IH | u k IH]; intros w; [done | |].
  - rewrite trace_Call. unfold network. destruct o; done.
  - rewrite trace_Do, world_after_Do. apply IH.
Qed.

(** Case analysis on the membership of an entry in a trace that has been
    computed. *)
Ltac in_trace H :=
  repeat first
    [ apply elem_of_nil in H; destruct H
    | apply elem_of_cons in H as [H | H]; [try discriminate H |] ].

(** ** Sign-up: local validation *)

Section SignUpValidation.

Variable is_email : string → bool.
Variable origin : string.

Local Abbreviation handleSubmit := (SignUp.handleSubmit is_email origin).
Local Abbreviation schema s :=
  (SignUp.signUpSchema is_email (SignUp.email s) (SignUp.password s)
     (SignUp.firstName s) (SignUp.lastName s)).

Lemma length_lt_1 (x : string) : (String.length x <? 1)%nat = bool_decide (x = "").
Proof. by destruct x. Qed.

Lemma truthy_Some (x : string) : truthy (Some x) = negb (bool_decide (x = "")).
Proof. reflexivity. Qed.

(** The schema accepts exactly the submissions whose four fields are fine. *)
Lemma signUpSchema_success (s : SignUp.State) :
  schema s = [] ↔
  is_email (SignUp.email s) = true ∧ (8 ≤ String.length (SignUp.password s))%nat
  ∧ SignUp.firstName s ≠ "" ∧ SignUp.lastName s ≠ "".
Proof.
  unfold SignUp.signUpSchema. rewrite !length_lt_1.
  destruct (is_email _); destruct (Nat.ltb_spec (String.length (SignUp.password s)) 8);
    repeat case_bool_decide; cbn; split; try done; try (intros (?&?&?&?); done || lia).
  all: intros _; repeat split; try done; lia.
Qed.

Lemma handleSubmit_schema_failure {W} (h : handler W) w s :
  schema s ≠ [] →
  trace h (handleSubmit s) w =
    [E_ui preventDefault; E_ui (setErrors ∅);
     E_ui (setErrors (SignUp.fieldErrors (schema s)))].
Proof.
  intros Hne. unfold SignUp.handleSubmit, trace.
  destruct (schema s) eqn:E; [done | reflexivity].
Qed.

Lemma handleSubmit_resume_required {W} (h : handler W) w s :
  schema s = [] → trim (SignUp.resumeText s) = "" →
  trace h (handleSubmit s) w =
    [E_ui preventDefault; E_ui (setErrors ∅);
     E_ui (toast {| title := "Resume Required";
                    description := "Please paste your resume or upload a document.";
                    variant := Some "destructive" |})].
Proof.
  intros Hs Hr. unfold SignUp.handleSubmit, trace. by rewrite Hs, Hr.
Qed.

Lemma handleSubmit_api_key_required {W} (h : handler W) w s :
  schema s = [] → trim (SignUp.resumeText s) ≠ "" → SignUp.elevenLabsApiKey s = "" →
  trace h (handleSubmit s) w =
    [E_ui preventDefault; E_ui (setErrors ∅);
     E_ui (toast {| title := "API Key Required";
                    description := "Please provide your ElevenLabs API key.";
                    variant := Some "destructive" |})].
Proof.
  intros Hs Hr Hk. unfold SignUp.handleSubmit, trace. rewrite Hs, Hk, truthy_Some.
  by rewrite bool_decide_eq_false_2.
Qed.

(** Each field the schema rejects has its message under its own key. *)
Lemma fieldErrors_schema (s : SignUp.State) :
  let errors := SignUp.fieldErrors (schema s) in
  (is_email (SignUp.email s) = false →
     errors !! "email" = Some "Please enter a valid email address")
  ∧ ((String.length (SignUp.password s) < 8)%nat →
     errors !! "password" = Some "Password must be at least 8 characters")
  ∧ (SignUp.firstName s = "" → errors !! "firstName" = Some "First name is required")
  ∧ (SignUp.lastName s = "" → errors !! "lastName" = Some "Last name is required").
Proof.
  unfold SignUp.signUpSchema. rewrite !length_lt_1.
  destruct (is_email _); destruct (Nat.ltb_spec (String.length (SignUp.password s)) 8);
    repeat case_bool_decide; cbn; repeat split; intros; try done; try lia.
Qed.

(** A submission that violates a constraint stops at one of the three
    local exits. *)
Lemma violation_cases (s : SignUp.State) :
  SignUp.violates_constraints is_email s = true →
  schema s ≠ []
  ∨ (schema s = [] ∧ trim (SignUp.resumeText s) = "")
  ∨ (schema s = [] ∧ trim (SignUp.resumeText s) ≠ "" ∧ SignUp.elevenLabsApiKey s = "").
Proof.
  intros Hv. destruct (decide (schema s = [])) as [Hs | Hs]; [| by left].
  right. pose proof Hs as (He & Hp & Hf & Hl)%signUpSchema_success.
  unfold SignUp.violates_constraints in Hv. rewrite He in Hv.
  apply Nat.ltb_ge in Hp. rewrite Hp in Hv.
  rewrite (bool_decide_eq_false_2 _ Hf), (bool_decide_eq_false_2 _ Hl) in Hv.
  cbn in Hv. apply orb_true_iff in Hv as [Hv | Hv]; apply bool_decide_eq_true_1 in Hv.
  - by left.
  - destruct (decide (trim (SignUp.resumeText s) = "")); [by left | by right].
Qed.

Lemma signup_violation_is_local_aux {W} (h : handler W) (w : W) (s : SignUp.State) :
  SignUp.violates_constraints is_email s = true →
  network (trace h (handleSubmit s) w) = [].
Proof.
  intros Hv.
  destruct (violation_cases s Hv) as [Hs | [[Hs Hr] | (Hs & Hr & Hk)]].
  - by rewrite handleSubmit_schema_failure.
  - by rewrite handleSubmit_resume_required.
  - by rewrite handleSubmit_api_key_required.
Qed.

(** C3 (as amended). A sign-up submission that violates a local constraint
    makes no network call and leaves the environment untouched. A field the
    schema rejects (email, password, first name, last name) is reported
    under its own key of the form's [errors]; an empty trimmed résumé and an
    empty API key are reported by a destructive toast instead, with [errors]
    left empty. *)
Theorem signup_violation_is_local {W} (h : handler W) (w : W) (s : SignUp.State) :
  SignUp.violates_constraints is_email s = true →
  let t := trace h (handleSubmit s) w in
  let errors := SignUp.errors_after t in
  network t = [] ∧ world_after h (handleSubmit s) w = w
  ∧ (is_email (SignUp.email s) = false →
       errors !! "email" = Some "Please enter a valid email address")
  ∧ ((String.length (SignUp.password s) < 8)%nat →
       errors !! "password" = Some "Password must be at least 8 characters")
  ∧ (SignUp.firstName s = "" → errors !! "firstName" = Some "First name is required")
  ∧ (SignUp.lastName s = "" → errors !! "lastName" = Some "Last name is required")
  ∧ (schema s = [] → trim (SignUp.resumeText s) = "" →
       errors = ∅ ∧
       effects t = [preventDefault; setErrors ∅;
                    toast {| title := "Resume Required";
                             description := "Please paste your resume or upload a document.";
                             variant := Some "destructive" |}])
  ∧ (schema s = [] → trim (SignUp.resumeText s) ≠ "" →
       errors = ∅ ∧
       effects t = [preventDefault; setErrors ∅;
                    toast {| title := "API Key Required";
                             description := "Please provide your ElevenLabs API key.";
                             variant := Some "destructive" |}]).
Proof.
  intros Hv t errors.
  assert (Hnet : network t = []) by by apply signup_violation_is_local_aux.
  split; [done |]. split; [by apply no_network_same_world |].
  assert (Hfield : schema s ≠ [] → errors = SignUp.fieldErrors (schema s)).
  { intros Hs. subst errors t. by rewrite handleSubmit_schema_failure. }
  pose proof (fieldErrors_schema s) as (Fe & Fp & Ff & Fl).
  pose proof (signUpSchema_success s) as [Hok _].
  repeat split.
  - intros He. rewrite Hfield; [by apply Fe |]. intros Hs. destruct (Hok Hs). congruence.
  - intros Hp. rewrite Hfield; [by apply Fp |]. intros Hs.
    destruct (Hok Hs) as (_ & ? & _). lia.
  - intros Hf. rewrite Hfield; [by apply Ff |]. intros Hs. by destruct (Hok Hs) as (_ & _ & ? & _).
  - intros Hl. rewrite Hfield; [by apply Fl |]. intros Hs. by destruct (Hok Hs) as (_ & _ & _ & ?).
  - subst errors t. by rewrite handleSubmit_resume_required.
  - subst errors t. by rewrite handleSubmit_resume_required.
  - subst errors t. rewrite handleSubmit_api_key_required; try done.
    destruct (violation_cases s Hv) as [? | [[_ ?] | (_ & _ & ?)]]; done.
  - subst errors t. rewrite handleSubmit_api_key_required; try done.
    destruct (violation_cases s Hv) as [? | [[_ ?] | (_ & _ & ?)]]; done.
Qed.

End SignUpValidation.

(** C3, witness: a password of seven characters. *)
Lemma signup_violation_is_local_witness :
  let t := trace Examples.offline
             (SignUp.handleSubmit Examples.has_at Examples.origin
                Examples.ada_short_password) () in
  network t = []
  ∧ SignUp.errors_after t !! "password" = Some "Password must be at least 8 characters".
Proof.
  pose proof (signup_violation_is_local Examples.has_at Examples.origin
                Examples.offline () Examples.ada_short_password eq_refl)
    as (Hn & _ & _ & Hp & _).
  split; [exact Hn |]. apply Hp. cbn. lia.
Defined.

(** C3, as stated, fails: a submission whose only defect is a résumé of
    blanks violates the constraints, makes no network call, and is
    answered by a toast: no error is recorded under any field. *)
Lemma signup_blank_resume_not_field_indexed :
  let s := Examples.ada_blank_resume in
  let t := trace Examples.offline
             (SignUp.handleSubmit Examples.has_at Examples.origin s) () in
  SignUp.violates_constraints Examples.has_at s = true
  ∧ t = [E_ui preventDefault; E_ui (setErrors ∅);
         E_ui (toast {| title := "Resume Required";
                        description := "Please paste your resume or upload a document.";
                        variant := Some "destructive" |})]
  ∧ ∀ field, SignUp.errors_after t !! field = None.
Proof.
  split; [reflexivity |]. split; [reflexivity |].
  intros field. apply lookup_empty.
Qed.

(** ** Sign-up: the remote steps *)

(** Answer the next remote call of the goal, and decide the tests made on
    the answers. *)
Ltac run_simpl :=
  cbn [run bind mbind mret Prog_bind Prog_ret await ui fst snd entry] in *.

Ltac answer h :=
  match goal with
  | |- context [h ?o ?w] => destruct (h o w) as [? ?] eqn:?; run_simpl
  end.

Ltac run_all h :=
  run_simpl; repeat first [answer h | case_match; run_simpl].

(** The backend answers the sign-up call with the answer of the identity
    provider; an identity it has created is a row of [auth.users]
    afterwards, and the personas table is not touched. *)
Lemma backend_signUp (w : Backend) c r w1 :
  backend (auth_signUp c) w = (r, w1) →
  r = identity_provider w c
  ∧ personas_table w1 = personas_table w
  ∧ users w ⊆ users w1
  ∧ (∀ u, auth_error r = None → auth_user r = Some u → u ∈ users w1).
Proof.
  unfold backend, signUp. intros Heq.
  destruct (auth_error (identity_provider w c)) eqn:He;
    [| destruct (auth_user (identity_provider w c)) eqn:Hu];
    simplify_eq; cbn; repeat split; try done; try set_solver.
Qed.

(** Invoking the provisioner leaves the tables as they are. *)
Lemma backend_invoke (w : Backend) n b r w1 :
  backend (functions_invoke n b) w = (r, w1) →
  r = provisioner w n b
  ∧ personas_table w1 = personas_table w
  ∧ profiles_table w1 = profiles_table w
  ∧ users w1 = users w.
Proof. unfold backend, invoke. intros Heq. by simplify_eq. Qed.

Section SignUpRemote.

Variable is_email : string → bool.
Variable origin : string.

Local Abbreviation handleSubmit := (SignUp.handleSubmit is_email origin).
Local Abbreviation register := (SignUp.register origin).
Local Abbreviation credentials := (SignUp.credentials origin).

(** A submission either stops at a local exit, without any remote call, or
    goes on to [register]. *)
Lemma handleSubmit_cases {W} (h : handler W) w s :
  (SignUp.violates_constraints is_email s = true ∧ network (trace h (handleSubmit s) w) = [])
  ∨ (SignUp.violates_constraints is_email s = false
     ∧ trace h (handleSubmit s) w
       = E_ui preventDefault :: E_ui (setErrors ∅) :: trace h (register s) w
     ∧ world_after h (handleSubmit s) w = world_after h (register s) w).
Proof.
  destruct (SignUp.violates_constraints is_email s) eqn:Hv.
  - left. split; [done |]. by apply signup_violation_is_local_aux.
  - right. split; [done |]. unfold SignUp.violates_constraints in Hv.
    repeat (apply orb_false_iff in Hv as [Hv ?]).
    apply negb_false_iff in Hv.
    unfold SignUp.handleSubmit, SignUp.signUpSchema, trace, world_after.
    rewrite Hv, !length_lt_1, !truthy_Some.
    by repeat match goal with H : _ = false |- _ => rewrite H; clear H end.
Qed.

(** An entry of a remote call in the trace of a submission is an entry of
    the trace of [register]. *)
Lemma remote_entry_of_register {W} (h : handler W) w s (e : Entry) :
  is_Some (remote_of e) → e ∈ trace h (handleSubmit s) w →
  trace h (handleSubmit s) w
    = E_ui preventDefault :: E_ui (setErrors ∅) :: trace h (register s) w
  ∧ world_after h (handleSubmit s) w = world_after h (register s) w
  ∧ e ∈ trace h (register s) w.
Proof.
  intros Hrem Hin. destruct (handleSubmit_cases h w s) as [[_ Hn] | (_ & Ht & Hw)].
  - exfalso. apply list_elem_of_split in Hin as (t1 & t2 & Ht). rewrite Ht in Hn.
    rewrite network_app in Hn. destruct Hrem as [o Ho].
    apply app_eq_nil in Hn as [_ Hn]. cbn in Hn. by rewrite Ho in Hn.
  - split; [done |]. split; [done |]. rewrite Ht in Hin.
    destruct Hrem as [o Ho].
    apply elem_of_cons in Hin as [-> | Hin]; [done |].
    apply elem_of_cons in Hin as [-> | Hin]; done.
Qed.

Lemma register_identity_failure {W} (h : handler W) w s c r e :
  E_signUp c r ∈ trace h (register s) w → auth_error r = Some e →
  trace h (register s) w =
    [E_ui (setIsLoading true); E_signUp (credentials s) r; E_ui (setIsLoading false);
     E_ui (toast {| title := "Sign up failed";
                    description := SignUp.sign_up_failed e;
                    variant := Some "destructive" |})].
Proof.
  unfold SignUp.register, SignUp.create_persona, trace.
  run_all h; intros Hin Herr; in_trace Hin; simplify_eq; done.
Qed.

Lemma register_provisioning_failure {W} (h : handler W) w s c r u n b e :
  E_signUp c r ∈ trace h (register s) w → auth_user r = Some u →
  E_invoke n b (FunctionsFailure e) ∈ trace h (register s) w →
  auth_error r = None
  ∧ trace h (register s) w =
    [E_ui (setIsLoading true); E_signUp (credentials s) r;
     E_invoke "create-agent" (SignUp.agent_body s) (FunctionsFailure e);
     E_ui (setIsLoading false);
     E_ui (toast {| title := "Error Creating Persona";
                    description := or_else (message e) "An unexpected error occurred.";
                    variant := Some "destructive" |})]
  ∧ ∃ w1,
      h (auth_signUp (credentials s)) w = (r, w1)
      ∧ h (functions_invoke "create-agent" (SignUp.agent_body s)) w1
        = (FunctionsFailure e, world_after h (register s) w).
Proof.
  unfold SignUp.register, SignUp.create_persona, trace, world_after.
  run_all h; intros Hin Huser Hin'; in_trace Hin; in_trace Hin'; simplify_eq; eauto.
Qed.

(** The persona row of a run is built from the identity the provider
    returned and the agent the provisioner returned. *)
Lemma register_inserts {W} (h : handler W) w s row ans :
  E_personas_insert row ans ∈ trace h (register s) w →
  ∃ r u b a,
    E_signUp (credentials s) r ∈ trace h (register s) w ∧ auth_user r = Some u
    ∧ E_invoke "create-agent" b (FunctionsSuccess a) ∈ trace h (register s) w
    ∧ row = SignUp.persona_row s u a.
Proof.
  unfold SignUp.register, SignUp.create_persona, trace.
  run_all h; intros Hin; in_trace Hin; simplify_eq;
    eexists _, _, _, _; (split; [| split; [eassumption || reflexivity |
                                            split; [| reflexivity]]]);
    repeat constructor.
Qed.

End SignUpRemote.
Section SignUpClaims.

Variable is_email : string → bool.
Variable origin : string.

Local Abbreviation handleSubmit := (SignUp.handleSubmit is_email origin).
Local Abbreviation register := (SignUp.register origin).
Local Abbreviation credentials := (SignUp.credentials origin).

(** C5 (as amended). When the identity provider answers the sign-up call
    with an error, the run stops there: the only network call is the
    sign-up call itself, and the error is shown in a destructive toast. A
    duplicate account ("User already registered") is reported by a sentence
    of the application, which differs from the provider's message; every
    other error is reported by the provider's message verbatim, so the two
    reports differ unless the provider's message is that very sentence. *)
Theorem signup_identity_failure {W} (h : handler W) (w : W) (s : SignUp.State)
    (c : SignUpCredentials) (r : AuthResponse) (e : Error) :
  let t := trace h (handleSubmit s) w in
  E_signUp c r ∈ t → auth_error r = Some e →
  t = [E_ui preventDefault; E_ui (setErrors ∅); E_ui (setIsLoading true);
       E_signUp (credentials s) r; E_ui (setIsLoading false);
       E_ui (toast {| title := "Sign up failed";
                      description := SignUp.sign_up_failed e;
                      variant := Some "destructive" |})]
  ∧ network t = [auth_signUp (credentials s)]
  ∧ (message e = "User already registered" →
       SignUp.sign_up_failed e = "An account with this email already exists. Please sign in."
       ∧ SignUp.sign_up_failed e ≠ message e
       ∧ ∀ e', message e' ≠ "User already registered" →
               message e' ≠ "An account with this email already exists. Please sign in." →
               SignUp.sign_up_failed e' ≠ SignUp.sign_up_failed e)
  ∧ (message e ≠ "User already registered" → SignUp.sign_up_failed e = message e).
Proof.
  intros t Hin He.
  destruct (remote_entry_of_register is_email origin h w s (E_signUp c r)
              (mk_is_Some _ _ eq_refl) Hin) as (Ht & _ & Hin').
  pose proof (register_identity_failure origin h w s c r e Hin' He) as Hreg.
  subst t. rewrite Ht, Hreg. split; [done |]. split; [done |].
  unfold SignUp.sign_up_failed. split.
  - intros Hdup. rewrite Hdup. cbn. split; [done |]. split; [done |].
    intros e' H1 H2. by rewrite bool_decide_eq_false_2.
  - intros Hne. by rewrite bool_decide_eq_false_2.
Qed.

(** C4. When the identity provider has created the identity and the
    provisioner then fails, the error is shown in a destructive toast and
    nothing else is called: no profile update, no persona insert, and no
    call that would undo the identity. On the backend the identity is a row
    of [auth.users] after the run, and the personas table is as it was. *)
Theorem signup_provisioning_failure (w : Backend) (s : SignUp.State)
    (c : SignUpCredentials) (r : AuthResponse) (u : string)
    (n : string) (b : CreateAgentBody.t) (e : Error) :
  let t := trace backend (handleSubmit s) w in
  let w' := world_after backend (handleSubmit s) w in
  E_signUp c r ∈ t → auth_user r = Some u → E_invoke n b (FunctionsFailure e) ∈ t →
  t = [E_ui preventDefault; E_ui (setErrors ∅); E_ui (setIsLoading true);
       E_signUp (credentials s) r;
       E_invoke "create-agent" (SignUp.agent_body s) (FunctionsFailure e);
       E_ui (setIsLoading false);
       E_ui (toast {| title := "Error Creating Persona";
                      description := or_else (message e) "An unexpected error occurred.";
                      variant := Some "destructive" |})]
  ∧ network t = [auth_signUp (credentials s);
                 functions_invoke "create-agent" (SignUp.agent_body s)]
  ∧ u ∈ users w'
  ∧ personas_table w' = personas_table w.
Proof.
  intros t w' Hin Hu Hin'.
  destruct (remote_entry_of_register is_email origin backend w s (E_signUp c r)
              (mk_is_Some _ _ eq_refl) Hin) as (Ht & Hw & Hr).
  destruct (remote_entry_of_register is_email origin backend w s
              (E_invoke n b (FunctionsFailure e)) (mk_is_Some _ _ eq_refl) Hin')
    as (_ & _ & Hr').
  destruct (register_provisioning_failure origin backend w s c r u n b e Hr Hu Hr')
    as (He & Hreg & w1 & H1 & H2).
  subst t w'. rewrite Ht, Hw, Hreg. split; [done |]. split; [done |].
  apply backend_signUp in H1 as (_ & Hp1 & _ & Hu1).
  apply backend_invoke in H2 as (_ & Hp2 & _ & Hu2).
  rewrite Hu2, Hp2, Hp1. split; [by apply Hu1 | done].
Qed.

End SignUpClaims.

(** C5, witness: the provider refuses a duplicate account. *)
Lemma signup_identity_failure_witness :
  let dup := {| message := "User already registered" |} in
  let t := trace (Examples.failing dup)
             (SignUp.handleSubmit Examples.has_at Examples.origin Examples.ada) () in
  network t = [auth_signUp (SignUp.credentials Examples.origin Examples.ada)]
  ∧ SignUp.sign_up_failed dup ≠ message dup.
Proof.
  intros dup t.
  pose proof (signup_identity_failure Examples.has_at Examples.origin
                (Examples.failing dup) () Examples.ada
                (SignUp.credentials Examples.origin Examples.ada)
                {| auth_user := None; auth_session := false; auth_error := Some dup |}
                dup) as Hthm.
  destruct Hthm as (_ & Hn & Hdup & _).
  - subst t. vm_compute. repeat constructor.
  - reflexivity.
  - split; [exact Hn |]. by destruct (Hdup eq_refl) as (_ & ? & _).
Defined.

(** C5, as stated, fails: a failure whose message is the sentence the
    application uses for duplicates is not a duplicate, and is reported
    exactly as a duplicate is. *)
Lemma signup_duplicate_report_not_unique :
  let dup := {| message := "User already registered" |} in
  let other := {| message := "An account with this email already exists. Please sign in." |} in
  let run e := trace (Examples.failing e)
                 (SignUp.handleSubmit Examples.has_at Examples.origin Examples.ada) () in
  message other ≠ message dup
  ∧ SignUp.sign_up_failed other = SignUp.sign_up_failed dup
  ∧ effects (run other) = effects (run dup).
Proof.
  split; [done |]. split; reflexivity.
Qed.

(** C4, witness: a sign-up on a fresh backend whose provisioner refuses the
    API key. *)
Lemma signup_provisioning_failure_witness :
  let w := Examples.fresh (Examples.accepting "u1") Examples.invalid_key in
  let w' := world_after backend
              (SignUp.handleSubmit Examples.has_at Examples.origin Examples.ada) w in
  "u1" ∈ users w' ∧ personas_table w' = ∅.
Proof.
  intros w w'.
  pose proof (signup_provisioning_failure Examples.has_at Examples.origin w Examples.ada
                (SignUp.credentials Examples.origin Examples.ada)
                {| auth_user := Some "u1"; auth_session := true; auth_error := None |}
                "u1" "create-agent" (SignUp.agent_body Examples.ada)
                {| message := "Invalid API key" |}) as Hthm.
  destruct Hthm as (_ & _ & Hu & Hp).
  - vm_compute. repeat constructor.
  - reflexivity.
  - vm_compute. repeat constructor.
  - split; [exact Hu | exact Hp].
Defined.

(** ** Create persona *)

Lemma CreatePersona_handleSubmit_checked s u :
  trim (CreatePersona.resumeText s) ≠ "" → trim (CreatePersona.elevenLabsApiKey s) ≠ "" →
  CreatePersona.user s = Some u →
  CreatePersona.handleSubmit s =
    Do preventDefault (Do (setIsLoading true) (Do (setPersonaOutput "idle" "")
      (outcome ← CreatePersona.create_persona s u;
       match outcome with
       | inl error =>
           ui (console_error "Error:" error);;
           ui (setPersonaOutput "error" (message error));;
           ui (toast {| title := "Error"; description := message error;
                        variant := Some "destructive" |})
       | inr _ => mret tt
       end;;
       ui (setIsLoading false)))).
Proof.
  intros Hr Hk Hu. unfold CreatePersona.handleSubmit.
  rewrite !truthy_Some, !bool_decide_eq_false_2, Hu by done. reflexivity.
Qed.

Lemma create_persona_branches {W} (h : handler W) (w : W) (s : CreatePersona.State)
    (u : string) :
  trim (CreatePersona.resumeText s) ≠ "" →
  trim (CreatePersona.elevenLabsApiKey s) ≠ "" →
  CreatePersona.user s = Some u →
  let t := trace h (CreatePersona.handleSubmit s) w in
  (∃ rest, network t = profiles_select_names u :: rest)
  ∧ (∀ i p, E_profiles_select i p ∈ t → CreatePersona.has_names p = false →
       network t = [profiles_select_names u]
       ∧ effects t =
           [preventDefault; setIsLoading true; setPersonaOutput "idle" "";
            console_error "Error:" CreatePersona.profile_incomplete;
            setPersonaOutput "error" "Please ensure your profile has a first and last name.";
            toast {| title := "Error";
                     description := "Please ensure your profile has a first and last name.";
                     variant := Some "destructive" |};
            setIsLoading false])
  ∧ (∀ n b e, E_invoke n b (FunctionsFailure e) ∈ t →
       network t = [profiles_select_names u; functions_invoke "create-agent" b]
       ∧ toast {| title := "Error"; description := message e;
                  variant := Some "destructive" |} ∈ effects t)
  ∧ (∀ row e, E_personas_insert row (Some e) ∈ t →
       ∃ b a, row = CreatePersona.persona_row s u a
         ∧ network t = [profiles_select_names u; functions_invoke "create-agent" b;
                        personas_insert row]
         ∧ toast {| title := "Error"; description := message e;
                    variant := Some "destructive" |} ∈ effects t)
  ∧ (∀ row, E_personas_insert row None ∈ t →
       ∃ b a, row = CreatePersona.persona_row s u a
         ∧ network t = [profiles_select_names u; functions_invoke "create-agent" b;
                        personas_insert row;
                        profiles_update
                          {| ProfileUpdate.elevenlabs_agent_id := a;
                             ProfileUpdate.elevenlabs_agent_link :=
                               CreatePersona.conversationLink a |} u]
         ∧ toast {| title := "Success!"; description := "Your persona is ready.";
                    variant := None |} ∈ effects t).
Proof.
  intros Hr Hk Hu t. subst t.
  rewrite (CreatePersona_handleSubmit_checked s u Hr Hk Hu).
  unfold CreatePersona.create_persona, CreatePersona.store_persona,
    CreatePersona.has_names, trace.
  run_all h.
  all: (split; [eexists; reflexivity |]).
  all: repeat split; intros;
    repeat match goal with
           | Hin : _ ∈ _ |- _ => in_trace Hin
           end; simplify_eq; cbn in *; simplify_eq; try done.
  all: try (eexists _, _; repeat split; try reflexivity; cbn; repeat constructor).
  all: try (cbn; repeat constructor).
  all: exfalso;
    repeat match goal with
           | Hn : _ ≫= _ = Some _ |- _ => rewrite Hn in *; clear Hn
           end;
    unfold truthy in *; repeat case_bool_decide; done.
Qed.

(** The steps of a create-persona run are made one after the other as the
    environment answers them. *)
Lemma create_persona_progress {W} (h : handler W) (w : W) (s : CreatePersona.State)
    (u : string) :
  trim (CreatePersona.resumeText s) ≠ "" →
  trim (CreatePersona.elevenLabsApiKey s) ≠ "" →
  CreatePersona.user s = Some u →
  let t := trace h (CreatePersona.handleSubmit s) w in
  (∀ p w1, h (profiles_select_names u) w = (p, w1) → CreatePersona.has_names p = true →
       ∃ f l, p ≫= names_first_name = Some f ∧ p ≫= names_last_name = Some l
         ∧ ∀ ag w2,
             h (functions_invoke "create-agent" (CreatePersona.agent_body s f l)) w1
               = (ag, w2) →
             E_invoke "create-agent" (CreatePersona.agent_body s f l) ag ∈ t
             ∧ ∀ a, ag = FunctionsSuccess a →
                 ∀ ins w3,
                   h (personas_insert (CreatePersona.persona_row s u a)) w2 = (ins, w3) →
                   E_personas_insert (CreatePersona.persona_row s u a) ins ∈ t
                   ∧ (ins = None →
                        ∀ upd w4,
                          h (profiles_update
                               {| ProfileUpdate.elevenlabs_agent_id := a;
                                  ProfileUpdate.elevenlabs_agent_link :=
                                    CreatePersona.conversationLink a |} u) w3
                            = (upd, w4) →
                          E_profiles_update
                            {| ProfileUpdate.elevenlabs_agent_id := a;
                               ProfileUpdate.elevenlabs_agent_link :=
                                 CreatePersona.conversationLink a |} u upd ∈ t
                          ∧ network t =
                              [profiles_select_names u;
                               functions_invoke "create-agent"
                                 (CreatePersona.agent_body s f l);
                               personas_insert (CreatePersona.persona_row s u a);
                               profiles_update
                                 {| ProfileUpdate.elevenlabs_agent_id := a;
                                    ProfileUpdate.elevenlabs_agent_link :=
                                      CreatePersona.conversationLink a |} u]
                          ∧ effects t =
                              [preventDefault; setIsLoading true;
                               setPersonaOutput "idle" "";
                               setPersonaOutput "success"
                                 "Persona created successfully! Redirecting...";
                               toast {| title := "Success!";
                                        description := "Your persona is ready.";
                                        variant := None |};
                               navigate_later "/account" 2000; setIsLoading false]
                          ∧ world_after h (CreatePersona.handleSubmit s) w = w4)).
Proof.
  intros Hr Hk Hu t p w1 H1 Hn. subst t.
  rewrite (CreatePersona_handleSubmit_checked s u Hr Hk Hu).
  unfold CreatePersona.create_persona, CreatePersona.store_persona, trace, world_after.
  run_simpl. rewrite H1. run_simpl.
  unfold CreatePersona.has_names in Hn. apply andb_true_iff in Hn as [Hf Hl].
  destruct (p ≫= names_first_name) as [f|]; [| done].
  destruct (p ≫= names_last_name) as [l|]; [| done].
  rewrite Hf, Hl. cbn [negb orb]. run_simpl.
  exists f, l. split; [done |]. split; [done |].
  intros ag w2 H2. rewrite H2. run_simpl. split; [repeat constructor |].
  intros a -> ins w3 H3. run_simpl. rewrite H3. run_simpl.
  split; [repeat constructor |].
  intros -> upd w4 H4. run_simpl. rewrite H4. run_simpl.
  split; [repeat constructor |]. done.
Qed.

(** C6 (as amended). Once the form has passed its local checks, the first
    remote call of the create-persona entry point reads the first and last
    name of the profile. When one of them is missing the run fails with a
    descriptive error before any agent call. Otherwise the agent is
    provisioned; when it is returned the links are derived and the Persona
    row is inserted; and only after a successful insert is the Profile
    updated with the agent id and link, the answer of that update being
    ignored: whatever it is, the run reports success and schedules the move
    to the account page. A failed provisioning or a failed insert is
    reported, and no Profile update is made then. *)
Theorem create_persona_steps {W} (h : handler W) (w : W) (s : CreatePersona.State)
    (u : string) :
  trim (CreatePersona.resumeText s) ≠ "" →
  trim (CreatePersona.elevenLabsApiKey s) ≠ "" →
  CreatePersona.user s = Some u →
  let t := trace h (CreatePersona.handleSubmit s) w in
  (∃ rest, network t = profiles_select_names u :: rest)
  ∧ (∀ i p, E_profiles_select i p ∈ t → CreatePersona.has_names p = false →
       network t = [profiles_select_names u]
       ∧ effects t =
           [preventDefault; setIsLoading true; setPersonaOutput "idle" "";
            console_error "Error:" CreatePersona.profile_incomplete;
            setPersonaOutput "error" "Please ensure your profile has a first and last name.";
            toast {| title := "Error";
                     description := "Please ensure your profile has a first and last name.";
                     variant := Some "destructive" |};
            setIsLoading false])
  ∧ (∀ n b e, E_invoke n b (FunctionsFailure e) ∈ t →
       network t = [profiles_select_names u; functions_invoke "create-agent" b]
       ∧ toast {| title := "Error"; description := message e;
                  variant := Some "destructive" |} ∈ effects t)
  ∧ (∀ row e, E_personas_insert row (Some e) ∈ t →
       ∃ b a, row = CreatePersona.persona_row s u a
         ∧ network t = [profiles_select_names u; functions_invoke "create-agent" b;
                        personas_insert row]
         ∧ toast {| title := "Error"; description := message e;
                    variant := Some "destructive" |} ∈ effects t)
  ∧ (∀ row, E_personas_insert row None ∈ t →
       ∃ b a, row = CreatePersona.persona_row s u a
         ∧ network t = [profiles_select_names u; functions_invoke "create-agent" b;
                        personas_insert row;
                        profiles_update
                          {| ProfileUpdate.elevenlabs_agent_id := a;
                             ProfileUpdate.elevenlabs_agent_link :=
                               CreatePersona.conversationLink a |} u]
         ∧ toast {| title := "Success!"; description := "Your persona is ready.";
                    variant := None |} ∈ effects t)
  ∧ (∀ p w1, h (profiles_select_names u) w = (p, w1) → CreatePersona.has_names p = true →
       ∃ f l, p ≫= names_first_name = Some f ∧ p ≫= names_last_name = Some l
         ∧ ∀ ag w2,
             h (functions_invoke "create-agent" (CreatePersona.agent_body s f l)) w1
               = (ag, w2) →
             E_invoke "create-agent" (CreatePersona.agent_body s f l) ag ∈ t
             ∧ ∀ a, ag = FunctionsSuccess a →
                 ∀ ins w3,
                   h (personas_insert (CreatePersona.persona_row s u a)) w2 = (ins, w3) →
                   E_personas_insert (CreatePersona.persona_row s u a) ins ∈ t
                   ∧ (ins = None →
                        ∀ upd w4,
                          h (profiles_update
                               {| ProfileUpdate.elevenlabs_agent_id := a;
                                  ProfileUpdate.elevenlabs_agent_link :=
                                    CreatePersona.conversationLink a |} u) w3
                            = (upd, w4) →
                          E_profiles_update
                            {| ProfileUpdate.elevenlabs_agent_id := a;
                               ProfileUpdate.elevenlabs_agent_link :=
                                 CreatePersona.conversationLink a |} u upd ∈ t
                          ∧ network t =
                              [profiles_select_names u;
                               functions_invoke "create-agent"
                                 (CreatePersona.agent_body s f l);
                               personas_insert (CreatePersona.persona_row s u a);
                               profiles_update
                                 {| ProfileUpdate.elevenlabs_agent_id := a;
                                    ProfileUpdate.elevenlabs_agent_link :=
                                      CreatePersona.conversationLink a |} u]
                          ∧ effects t =
                              [preventDefault; setIsLoading true;
                               setPersonaOutput "idle" "";
                               setPersonaOutput "success"
                                 "Persona created successfully! Redirecting...";
                               toast {| title := "Success!";
                                        description := "Your persona is ready.";
                                        variant := None |};
                               navigate_later "/account" 2000; setIsLoading false]
                          ∧ world_after h (CreatePersona.handleSubmit s) w = w4)).
Proof.
  intros Hr Hk Hu t.
  destruct (create_persona_branches h w s u Hr Hk Hu) as (B1 & B2 & B3 & B4 & B5).
  pose proof (create_persona_progress h w s u Hr Hk Hu) as P.
  split; [exact B1 |]. split; [exact B2 |]. split; [exact B3 |].
  split; [exact B4 |]. split; [exact B5 | exact P].
Qed.

(** C6, witness: Ada creates her persona on a backend that knows her; all
    four steps are made, in the order of the code. *)
Lemma create_persona_steps_witness :
  let t := trace backend (CreatePersona.handleSubmit Examples.ada_persona_form)
             Examples.ada_signed_in in
  network t =
    [profiles_select_names "u1";
     functions_invoke "create-agent"
       (CreatePersona.agent_body Examples.ada_persona_form "Ada" "Lovelace");
     personas_insert (CreatePersona.persona_row Examples.ada_persona_form "u1" "abc123");
     profiles_update
       {| ProfileUpdate.elevenlabs_agent_id := "abc123";
          ProfileUpdate.elevenlabs_agent_link := CreatePersona.conversationLink "abc123" |}
       "u1"].
Proof.
  intros t.
  assert (Hr : trim (CreatePersona.resumeText Examples.ada_persona_form) ≠ "")
    by (vm_compute; discriminate).
  assert (Hk : trim (CreatePersona.elevenLabsApiKey Examples.ada_persona_form) ≠ "")
    by (vm_compute; discriminate).
  destruct (create_persona_steps backend Examples.ada_signed_in Examples.ada_persona_form
              "u1" Hr Hk eq_refl) as (_ & _ & _ & _ & _ & P).
  destruct (P _ _ eq_refl eq_refl) as (f & l & Hf & Hl & P2).
  injection Hf as <-. injection Hl as <-.
  destruct (P2 _ _ eq_refl) as (_ & P3).
  destruct (P3 "abc123" eq_refl _ _ eq_refl) as (_ & P4).
  destruct (P4 eq_refl _ _ eq_refl) as (_ & Hn & _).
  exact Hn.
Defined.

(** C6, as stated, fails: in a run where every step succeeds the Persona
    insert is made before the Profile update, not after it. *)
Lemma create_persona_inserts_before_profile_update :
  let t := trace backend (CreatePersona.handleSubmit Examples.ada_persona_form)
             Examples.ada_signed_in in
  network t =
    [profiles_select_names "u1";
     functions_invoke "create-agent"
       (CreatePersona.agent_body Examples.ada_persona_form "Ada" "Lovelace");
     personas_insert (CreatePersona.persona_row Examples.ada_persona_form "u1" "abc123");
     profiles_update
       {| ProfileUpdate.elevenlabs_agent_id := "abc123";
          ProfileUpdate.elevenlabs_agent_link :=
            "https://elevenlabs.io/app/talk-to?agent_id=abc123" |} "u1"].
Proof. vm_compute. reflexivity. Qed.

(** ** The store *)

Lemma update_is_public_lookup uid now b eq_id (t : gmap string personas.row) k :
  personas.update_is_public uid now b eq_id t !! k =
  (λ r, if bool_decide (k = eq_id) && personas.update_using uid r
        then personas.update_updated_at_column now
               {| personas.user_id := personas.user_id r; personas.is_public := b;
                  personas.elevenlabs_api_key := personas.elevenlabs_api_key r;
                  personas.agent_id := personas.agent_id r;
                  personas.conversation_link := personas.conversation_link r;
                  personas.avatar_url := personas.avatar_url r;
                  personas.created_at := personas.created_at r;
                  personas.updated_at := personas.updated_at r |}
        else r) <$> t !! k.
Proof.
  unfold personas.update_is_public. rewrite map_lookup_imap.
  by destruct (t !! k).
Qed.

Lemma update_is_public_other uid now b eq_id (t : gmap string personas.row) k :
  k ≠ eq_id → personas.update_is_public uid now b eq_id t !! k = t !! k.
Proof.
  intros Hne. rewrite update_is_public_lookup, bool_decide_eq_false_2 by done.
  by destruct (t !! k).
Qed.

(** The answer of the backend to the visibility update, and the backend
    afterwards. *)
Lemma backend_update_is_public (w : Backend) b eq_id :
  backend (personas_update_is_public b eq_id) w =
    (None,
     tick (with_personas
             (personas.update_is_public (auth_uid w) (clock w) b eq_id (personas_table w))
             w)).
Proof. reflexivity. Qed.

(** ** The visibility toggle *)

Lemma handleVisibilitySave_run {W} (h : handler W) w s p :
  Account.persona s = Some p →
  let b := bool_decide (Account.visibility s = "public") in
  let answer := h (personas_update_is_public b (Persona.id p)) w in
  world_after h (Account.handleVisibilitySave s) w = answer.2
  ∧ trace h (Account.handleVisibilitySave s) w =
      E_ui (setSaving true) :: E_personas_update b (Persona.id p) answer.1
      :: E_ui (setSaving false)
      :: match answer.1 with
         | Some _ =>
             [E_ui (toast {| title := "Error"; description := "Could not update visibility.";
                             variant := Some "destructive" |})]
         | None =>
             [E_ui (toast {| title := "Saved"; description := "Visibility settings updated.";
                             variant := None |});
              E_ui (setPersona
                      {| Persona.id := Persona.id p; Persona.is_public := b;
                         Persona.updated_at := Persona.updated_at p;
                         Persona.avatar_url := Persona.avatar_url p;
                         Persona.conversation_link := Persona.conversation_link p |})]
         end.
Proof.
  intros Hp b answer. subst b answer.
  unfold Account.handleVisibilitySave, trace, world_after. rewrite Hp. run_simpl.
  by destruct (h _ w) as [[e|] w1].
Qed.

(** What one save leaves on the backend and on the page. *)
Lemma save_spec v (s : Account.State) (w : Backend) p :
  Account.persona s = Some p →
  let b := bool_decide (v = "public") in
  (Account.save v (s, w)).2 =
    tick (with_personas
            (personas.update_is_public (auth_uid w) (clock w) b (Persona.id p)
               (personas_table w)) w)
  ∧ Account.persona (Account.save v (s, w)).1 =
      Some {| Persona.id := Persona.id p; Persona.is_public := b;
              Persona.updated_at := Persona.updated_at p;
              Persona.avatar_url := Persona.avatar_url p;
              Persona.conversation_link := Persona.conversation_link p |}.
Proof.
  intros Hp b. unfold Account.save. cbn [fst snd].
  destruct (handleVisibilitySave_run backend w (Account.setVisibility v s) p Hp) as [Hw Ht].
  rewrite Hw, Ht, backend_update_is_public. done.
Qed.

Lemma selection_public b : bool_decide (Account.selection b = "public") = b.
Proof. by destruct b. Qed.

(** The [is_public] of the row [k] after one save of the selection [v]. *)
Lemma save_is_public v (s : Account.State) (w : Backend) p k r :
  Account.persona s = Some p → personas_table w !! k = Some r →
  personas_table (Account.save v (s, w)).2 !! k =
    Some (if bool_decide (k = Persona.id p) && personas.update_using (auth_uid w) r
          then personas.update_updated_at_column (clock w)
                 {| personas.user_id := personas.user_id r;
                    personas.is_public := bool_decide (v = "public");
                    personas.elevenlabs_api_key := personas.elevenlabs_api_key r;
                    personas.agent_id := personas.agent_id r;
                    personas.conversation_link := personas.conversation_link r;
                    personas.avatar_url := personas.avatar_url r;
                    personas.created_at := personas.created_at r;
                    personas.updated_at := personas.updated_at r |}
          else r)
  ∧ auth_uid (Account.save v (s, w)).2 = auth_uid w
  ∧ Persona.id <$> Account.persona (Account.save v (s, w)).1 = Some (Persona.id p).
Proof.
  intros Hp Hr. destruct (save_spec v s w p Hp) as [Hw Hs]. rewrite Hw, Hs.
  cbn [tick with_personas personas_table auth_uid].
  by rewrite update_is_public_lookup, Hr.
Qed.

Lemma visibility_toggle_store {W} (h : handler W) (w : W) (bw : Backend)
    (s : Account.State) (p : Persona.t) (r : personas.row) :
  Account.persona s = Some p →
  personas_table bw !! Persona.id p = Some r →
  let t := trace h (Account.handleVisibilitySave s) w in
  let b := personas.is_public r in
  let once := Account.save (Account.selection (negb b)) (s, bw) in
  let twice := Account.save (Account.selection b) once in
  (∀ q, E_ui (setPersona q) ∈ t →
     ∃ v pre post, t = pre ++ E_personas_update v (Persona.id p) None :: post
       ∧ E_ui (setPersona q) ∈ post ∧ E_ui (setPersona q) ∉ pre)
  ∧ (∀ v i e, E_personas_update v i (Some e) ∈ t →
       Account.persona (Account.displayed s t) = Account.persona s
       ∧ Account.visibility (Account.displayed s t) = Account.visibility s
       ∧ toast {| title := "Error"; description := "Could not update visibility.";
                  variant := Some "destructive" |} ∈ effects t)
  ∧ personas.is_public <$> personas_table twice.2 !! Persona.id p = Some b
  ∧ (auth_uid bw = Some (personas.user_id r) →
       personas.is_public <$> personas_table once.2 !! Persona.id p = Some (negb b))
  ∧ (∀ k, k ≠ Persona.id p → personas_table twice.2 !! k = personas_table bw !! k)
  ∧ (∀ v, personas.is_public <$>
            personas_table (Account.save v (Account.save v (s, bw))).2 !! Persona.id p
          = personas.is_public <$>
              personas_table (Account.save v (s, bw)).2 !! Persona.id p).
Proof.
  intros Hp Hr t b once twice.
  destruct (handleVisibilitySave_run h w s p Hp) as [_ Ht]. cbn zeta in Ht.
  split; [| split].
  - intros q Hq. subst t. rewrite Ht in Hq |- *.
    destruct (h _ w).1 as [e|]; in_trace Hq. simplify_eq.
    eexists _, [E_ui (setSaving true)], _. split; [reflexivity |].
    split; [repeat constructor |]. intros Hpre. in_trace Hpre.
  - intros v i e Hin. subst t. rewrite Ht in Hin |- *.
    destruct (h _ w).1 as [e'|]; in_trace Hin.
    cbn. by repeat constructor.
  - assert (Honce : ∀ v, ∃ s1 w1 p1 r1,
              Account.save v (s, bw) = (s1, w1) ∧ Account.persona s1 = Some p1
              ∧ Persona.id p1 = Persona.id p ∧ auth_uid w1 = auth_uid bw
              ∧ personas_table w1 !! Persona.id p = Some r1
              ∧ personas.user_id r1 = personas.user_id r
              ∧ personas.is_public r1 =
                  (if personas.update_using (auth_uid bw) r
                   then bool_decide (v = "public") else personas.is_public r)
              ∧ ∀ k, k ≠ Persona.id p → personas_table w1 !! k = personas_table bw !! k).
    { intros v. destruct (save_is_public v s bw p _ r Hp Hr) as (Hl & Hu & Hi).
      destruct (save_spec v s bw p Hp) as [Hw Hs].
      destruct (Account.save v (s, bw)) as [s1 w1] eqn:Hsave. cbn [fst snd] in *.
      rewrite Hs in Hi. eexists s1, w1, _, _.
      split; [done |]. split; [exact Hs |]. split; [done |]. split; [done |].
      split; [exact Hl |]. rewrite bool_decide_eq_true_2 by done. cbn [andb].
      split; [by destruct (personas.update_using _ r) |].
      split; [by destruct (personas.update_using _ r) |].
      intros k Hk. rewrite Hw. cbn [tick with_personas personas_table].
      by apply update_is_public_other. }
    assert (Hsame : ∀ r1, personas.user_id r1 = personas.user_id r →
              personas.update_using (auth_uid bw) r1 = personas.update_using (auth_uid bw) r).
    { intros r1 Hu1. unfold personas.update_using. by rewrite Hu1. }
    repeat split.
    + subst twice once.
      destruct (Honce (Account.selection (negb b))) as
        (s1 & w1 & p1 & r1 & -> & Hp1 & Hid & Hu1 & Hl1 & Hr1 & Hb1 & _).
      rewrite <- Hid in Hl1 |- *.
      destruct (save_is_public (Account.selection b) s1 w1 p1 _ r1 Hp1 Hl1) as (-> & _).
      rewrite bool_decide_eq_true_2 by done. cbn [andb fmap option_fmap option_map].
      rewrite Hu1, (Hsame r1 Hr1), selection_public.
      destruct (personas.update_using _ r); [done | by rewrite Hb1].
    + intros Hown. subst once.
      destruct (Honce (Account.selection (negb b))) as
        (s1 & w1 & p1 & r1 & -> & _ & _ & _ & Hl1 & _ & Hb1 & _).
      cbn [snd]. rewrite Hl1. cbn. rewrite Hb1, selection_public.
      unfold personas.update_using. by rewrite bool_decide_eq_true_2.
    + intros k Hk. subst twice once.
      destruct (Honce (Account.selection (negb b))) as
        (s1 & w1 & p1 & r1 & -> & Hp1 & Hid & _ & _ & _ & _ & Hframe).
      destruct (save_spec (Account.selection b) s1 w1 p1 Hp1) as [-> _].
      cbn [tick with_personas personas_table].
      rewrite update_is_public_other by (by rewrite Hid). by apply Hframe.
    + intros v.
      destruct (Honce v) as (s1 & w1 & p1 & r1 & -> & Hp1 & Hid & Hu1 & Hl1 & Hr1 & Hb1 & _).
      cbn [snd]. rewrite Hl1. rewrite <- Hid in Hl1 |- *.
      destruct (save_is_public v s1 w1 p1 _ r1 Hp1 Hl1) as (-> & _).
      rewrite bool_decide_eq_true_2 by done. cbn [andb fmap option_fmap option_map].
      rewrite Hu1, (Hsame r1 Hr1).
      destruct (personas.update_using _ r); [by rewrite Hb1 | done].
Qed.

(** C7. The account page sends one update, with the visibility selected.
    It changes the persona it displays only after the store has
    acknowledged the update, and then displays the visibility selected; it
    displays what it displayed before when the update fails. At the data
    layer, saving the opposite visibility and then the original one leaves
    the stored [is_public] of the row at its original value, whatever that
    value is (the first save does change it when the caller owns the row),
    the page displaying after each save the visibility saved; the other
    rows are not touched, and saving the same selection twice stores what
    saving it once stores. *)
Theorem visibility_toggle {W} (h : handler W) (w : W) (bw : Backend)
    (s : Account.State) (p : Persona.t) (r : personas.row) :
  Account.persona s = Some p →
  personas_table bw !! Persona.id p = Some r →
  let t := trace h (Account.handleVisibilitySave s) w in
  let b := personas.is_public r in
  let once := Account.save (Account.selection (negb b)) (s, bw) in
  let twice := Account.save (Account.selection b) once in
  (∀ q, E_ui (setPersona q) ∈ t →
     ∃ v pre post, t = pre ++ E_personas_update v (Persona.id p) None :: post
       ∧ E_ui (setPersona q) ∈ post ∧ E_ui (setPersona q) ∉ pre)
  ∧ (∀ v i e, E_personas_update v i (Some e) ∈ t →
       Account.persona (Account.displayed s t) = Account.persona s
       ∧ Account.visibility (Account.displayed s t) = Account.visibility s
       ∧ toast {| title := "Error"; description := "Could not update visibility.";
                  variant := Some "destructive" |} ∈ effects t)
  ∧ personas.is_public <$> personas_table twice.2 !! Persona.id p = Some b
  ∧ (auth_uid bw = Some (personas.user_id r) →
       personas.is_public <$> personas_table once.2 !! Persona.id p = Some (negb b))
  ∧ (∀ k, k ≠ Persona.id p → personas_table twice.2 !! k = personas_table bw !! k)
  ∧ (∀ v, personas.is_public <$>
            personas_table (Account.save v (Account.save v (s, bw))).2 !! Persona.id p
          = personas.is_public <$>
              personas_table (Account.save v (s, bw)).2 !! Persona.id p)
  ∧ network t = [personas_update_is_public
                   (bool_decide (Account.visibility s = "public")) (Persona.id p)]
  ∧ (∀ v i, E_personas_update v i None ∈ t →
       Account.persona (Account.displayed s t) =
         Some {| Persona.id := Persona.id p;
                 Persona.is_public := bool_decide (Account.visibility s = "public");
                 Persona.updated_at := Persona.updated_at p;
                 Persona.avatar_url := Persona.avatar_url p;
                 Persona.conversation_link := Persona.conversation_link p |}
       ∧ toast {| title := "Saved"; description := "Visibility settings updated.";
                  variant := None |} ∈ effects t)
  ∧ (Persona.is_public <$> Account.persona once.1) = Some (negb b)
  ∧ (Persona.is_public <$> Account.persona twice.1) = Some b.
Proof.
  intros Hp Hr t b once twice.
  destruct (visibility_toggle_store h w bw s p r Hp Hr) as (S1 & S2 & S3 & S4 & S5 & S6).
  destruct (handleVisibilitySave_run h w s p Hp) as [_ Ht]. cbn zeta in Ht.
  split; [exact S1 |]. split; [exact S2 |]. split; [exact S3 |].
  split; [exact S4 |]. split; [exact S5 |]. split; [exact S6 |].
  split; [| split; [| split]].
  - subst t. rewrite Ht. by destruct (h _ w).1.
  - intros v i Hin. subst t. rewrite Ht in Hin |- *.
    destruct (h _ w).1 as [e|]; in_trace Hin.
    cbn. split; [done |]. repeat constructor.
  - subst once. destruct (save_spec (Account.selection (negb b)) s bw p Hp) as [_ Hs].
    cbn zeta in Hs. rewrite Hs. cbn. by rewrite selection_public.
  - subst twice once.
    destruct (save_spec (Account.selection (negb b)) s bw p Hp) as [_ Hs].
    cbn zeta in Hs.
    destruct (Account.save (Account.selection (negb b)) (s, bw)) as [s1 w1].
    cbn [fst] in Hs.
    destruct (save_spec (Account.selection b) s1 w1 _ Hs) as [_ Hs2].
    cbn zeta in Hs2. rewrite Hs2. cbn. by rewrite selection_public.
Qed.

(** C7, witness: Ada makes her private persona public, then private
    again; the store and the page follow. *)
Lemma visibility_toggle_witness :
  let once := Account.save "public" (Examples.ada_account, Examples.ada_with_persona) in
  let twice := Account.save "private" once in
  (personas.is_public <$> personas_table once.2 !! "p1") = Some true
  ∧ (Persona.is_public <$> Account.persona once.1) = Some true
  ∧ (personas.is_public <$> personas_table twice.2 !! "p1") = Some false
  ∧ (Persona.is_public <$> Account.persona twice.1) = Some false.
Proof.
  intros once twice.
  pose proof (visibility_toggle backend Examples.ada_with_persona Examples.ada_with_persona
                Examples.ada_account _ Examples.ada_row eq_refl eq_refl)
    as (_ & _ & Htwice & Honce & _ & _ & _ & _ & Hd1 & Hd2).
  split; [exact (Honce eq_refl) |]. split; [exact Hd1 |]. split; [exact Htwice | exact Hd2].
Defined.

(** C9. The update sent by the visibility toggle changes, on the backend,
    nothing but the row whose id is that of the persona displayed, and of
    that row nothing but [is_public] and, through the trigger, [updated_at]:
    its owner, API key, agent id, links and creation time stay as they
    were, no row appears or disappears, and the profiles and the identities
    are not touched. *)
Theorem visibility_update_frame (w : Backend) (s : Account.State) (p : Persona.t) :
  Account.persona s = Some p →
  let w' := world_after backend (Account.handleVisibilitySave s) w in
  let b := bool_decide (Account.visibility s = "public") in
  network (trace backend (Account.handleVisibilitySave s) w)
    = [personas_update_is_public b (Persona.id p)]
  ∧ (∀ k, k ≠ Persona.id p → personas_table w' !! k = personas_table w !! k)
  ∧ (personas_table w !! Persona.id p = None → personas_table w' !! Persona.id p = None)
  ∧ (∀ r, personas_table w !! Persona.id p = Some r →
       ∃ r', personas_table w' !! Persona.id p = Some r'
         ∧ personas.user_id r' = personas.user_id r
         ∧ personas.elevenlabs_api_key r' = personas.elevenlabs_api_key r
         ∧ personas.agent_id r' = personas.agent_id r
         ∧ personas.conversation_link r' = personas.conversation_link r
         ∧ personas.avatar_url r' = personas.avatar_url r
         ∧ personas.created_at r' = personas.created_at r
         ∧ (if personas.update_using (auth_uid w) r
            then personas.is_public r' = b ∧ personas.updated_at r' = clock w
            else r' = r))
  ∧ profiles_table w' = profiles_table w
  ∧ users w' = users w.
Proof.
  intros Hp w' b. subst w'.
  destruct (handleVisibilitySave_run backend w s p Hp) as [Hw Ht]. cbn zeta in Hw, Ht.
  rewrite Hw, Ht, backend_update_is_public. cbn [fst snd tick with_personas personas_table
    profiles_table users].
  split; [done |]. split; [by intros; apply update_is_public_other |].
  split; [by intros Hn; rewrite update_is_public_lookup, Hn |].
  split; [| done].
  intros r Hr. rewrite update_is_public_lookup, Hr. cbn [fmap option_fmap option_map].
  rewrite bool_decide_eq_true_2 by done. cbn [andb].
  eexists. split; [reflexivity |]. by destruct (personas.update_using _ r).
Qed.

(** C9, witness: Ada makes her persona public; the persona of Grace and the
    API key of Ada are as they were. *)
Lemma visibility_update_frame_witness :
  let w' := world_after backend
              (Account.handleVisibilitySave
                 (Account.setVisibility "public" Examples.ada_account))
              Examples.ada_with_persona in
  personas_table w' !! "p2" = Some Examples.grace_row
  ∧ personas.elevenlabs_api_key <$> personas_table w' !! "p1" = Some (Some "sk_ada").
Proof.
  intros w'.
  pose proof (visibility_update_frame Examples.ada_with_persona
                (Account.setVisibility "public" Examples.ada_account) _ eq_refl)
    as (_ & Hother & _ & Hrow & _).
  subst w'. split.
  - rewrite (Hother "p2") by discriminate. reflexivity.
  - destruct (Hrow Examples.ada_row eq_refl) as (r' & Hl & _ & Hk & _).
    cbn [Persona.id] in Hl. rewrite Hl. cbn. by rewrite Hk.
Defined.

(** ** The public listing *)

Lemma fetchPublicPersonas_run {W} (h : handler W) w :
  let r := (h (personas_select_listing true) w).1 in
  trace h PublicPersonas.fetchPublicPersonas w =
    E_ui (setLoading true) :: E_personas_select true r
    :: match listing_error r with
       | Some e =>
           [E_ui (console_error "Error fetching public personas:" e);
            E_ui (toast {| title := "Error";
                           description := "Could not fetch public personas.";
                           variant := Some "destructive" |});
            E_ui (setPersonas []); E_ui (setLoading false)]
       | None =>
           [E_ui (setPersonas (PublicPersonas.formattedPersonas (listing_data r)));
            E_ui (setLoading false)]
       end.
Proof.
  unfold PublicPersonas.fetchPublicPersonas, trace. run_simpl.
  destruct (h (personas_select_listing true) w) as [r w1]. run_simpl.
  by destruct (listing_error r).
Qed.

(** An entry is displayed exactly for the fetched rows whose agent id is
    neither null nor empty. *)
Lemma elem_of_formattedPersonas data q :
  q ∈ PublicPersonas.formattedPersonas data ↔
  ∃ row a, row ∈ default [] data ∧ Listed.agent_id row = Some a ∧ a ≠ ""
    ∧ q = {| PublicPersona.id := Listed.id row;
             PublicPersona.avatar_url := Listed.avatar_url row;
             PublicPersona.agent_id := Some a;
             PublicPersona.conversation_link :=
               "https://elevenlabs.io/app/talk-to?agent_id=" +:+ a |}.
Proof.
  unfold PublicPersonas.formattedPersonas. rewrite list_elem_of_fmap. split.
  - intros (row & -> & Hin). apply list_elem_of_In, filter_In in Hin as [Hin Ht].
    destruct (Listed.agent_id row) as [a|] eqn:Ha; [| done].
    exists row, a. rewrite <- list_elem_of_In in Hin. cbn in Ht.
    apply negb_true_iff, bool_decide_eq_false in Ht. by rewrite Ha.
  - intros (row & a & Hin & Ha & Hne & ->). exists row. rewrite Ha. split; [done |].
    apply list_elem_of_In, filter_In. rewrite <- list_elem_of_In. split; [done |].
    rewrite Ha. cbn. by rewrite bool_decide_eq_false_2.
Qed.

(** C8 (as amended). The listing makes one read, of the public rows, and
    stops loading. From the rows returned it displays exactly those whose
    agent id is neither null nor empty, in their order, each with the id,
    avatar and agent id of its row and the conversation link derived from
    the agent id; the other rows are dropped without error. Of two rows,
    one with a null agent id and one with a non-empty agent id, exactly the
    second is displayed. A failed read leaves an empty list and a
    destructive toast, and the view renders its empty state. *)
Theorem public_listing {W} (h : handler W) (w : W) (s0 : PublicPersonas.State) :
  let r := (h (personas_select_listing true) w).1 in
  let t := trace h PublicPersonas.fetchPublicPersonas w in
  let s := PublicPersonas.displayed s0 t in
  network t = [personas_select_listing true]
  ∧ PublicPersonas.loading s = false
  ∧ (∀ e, listing_error r = Some e →
       PublicPersonas.personas s = []
       ∧ PublicPersonas.render s = PublicPersonas.NoPublicPersonasYet
       ∧ toast {| title := "Error"; description := "Could not fetch public personas.";
                  variant := Some "destructive" |} ∈ effects t)
  ∧ (listing_error r = None →
       PublicPersonas.personas s = PublicPersonas.formattedPersonas (listing_data r)
       ∧ (∀ q, q ∈ PublicPersonas.personas s ↔
            ∃ row a, row ∈ default [] (listing_data r)
              ∧ Listed.agent_id row = Some a ∧ a ≠ ""
              ∧ q = {| PublicPersona.id := Listed.id row;
                       PublicPersona.avatar_url := Listed.avatar_url row;
                       PublicPersona.agent_id := Some a;
                       PublicPersona.conversation_link :=
                         "https://elevenlabs.io/app/talk-to?agent_id=" +:+ a |})
       ∧ length (PublicPersonas.personas s)
         = length (List.filter (λ row, truthy (Listed.agent_id row))
                     (default [] (listing_data r)))
       ∧ (∀ row1 row2 a, Listed.agent_id row1 = None → Listed.agent_id row2 = Some a →
            a ≠ "" →
            listing_data r = Some [row1; row2] ∨ listing_data r = Some [row2; row1] →
            PublicPersonas.personas s =
              [{| PublicPersona.id := Listed.id row2;
                  PublicPersona.avatar_url := Listed.avatar_url row2;
                  PublicPersona.agent_id := Some a;
                  PublicPersona.conversation_link :=
                    "https://elevenlabs.io/app/talk-to?agent_id=" +:+ a |}])).
Proof.
  intros r t s. subst s t. rewrite fetchPublicPersonas_run. fold r.
  destruct (listing_error r) as [e|] eqn:He.
  - split; [done |]. split; [done |]. split; [| done].
    intros e' _. split; [done |]. split; [done |]. cbn. repeat constructor.
  - split; [done |]. split; [done |]. split; [done |]. intros _.
    cbn [PublicPersonas.displayed effects omap ui_of foldl PublicPersonas.apply
         PublicPersonas.personas PublicPersonas.loading].
    cbn.
    split; [done |]. split; [apply elem_of_formattedPersonas |].
    split; [unfold PublicPersonas.formattedPersonas; by rewrite length_map |].
    intros row1 row2 a H1 H2 Hne [Hd | Hd]; rewrite Hd;
      unfold PublicPersonas.formattedPersonas;
      cbn; rewrite H1, H2; cbn; rewrite bool_decide_eq_false_2 by done;
      cbn; by rewrite H2.
Qed.

(** C8, witness: a visitor lists the personas of the backend; only the
    public one, of Grace, is displayed. *)
Lemma public_listing_witness :
  let t := trace backend PublicPersonas.fetchPublicPersonas Examples.ada_with_persona in
  PublicPersonas.personas (PublicPersonas.displayed PublicPersonas.initial t) =
    [{| PublicPersona.id := "p2";
        PublicPersona.avatar_url :=
          Some "https://api.dicebear.com/7.x/pixel-art/svg?seed=u2&scale=100";
        PublicPersona.agent_id := Some "def456";
        PublicPersona.conversation_link :=
          "https://elevenlabs.io/app/talk-to?agent_id=def456" |}].
Proof.
  intros t.
  pose proof (public_listing backend Examples.ada_with_persona PublicPersonas.initial)
    as (_ & _ & _ & Hok).
  destruct (Hok eq_refl) as (Hp & _). subst t. rewrite Hp. vm_compute. reflexivity.
Defined.

(** C8, as stated, fails: a row whose agent id is the empty string has a
    non-null agent id and is not displayed. *)
Lemma public_listing_drops_empty_agent_id :
  let rows := Examples.blank_agent_rows in
  let t := trace (Examples.listing rows) PublicPersonas.fetchPublicPersonas () in
  length (List.filter (λ row, bool_decide (Listed.agent_id row ≠ None)) rows) = 1
  ∧ PublicPersonas.personas (PublicPersonas.displayed PublicPersonas.initial t) = [].
Proof. split; reflexivity. Qed.

(** ** Reading the personas under the policies *)

Lemma elem_of_visible uid where_ (t : gmap string personas.row) k r :
  (k, r) ∈ personas.visible uid where_ t ↔
  t !! k = Some r ∧ personas.select_using uid r = true ∧ where_ k r = true.
Proof.
  unfold personas.visible. rewrite list_elem_of_filter, elem_of_map_to_list. cbn.
  rewrite andb_true_iff. tauto.
Qed.

(** A row is visible to a caller exactly when the caller owns it or it is
    public. *)
Lemma select_using_spec uid r :
  personas.select_using uid r = true ↔
  uid = Some (personas.user_id r) ∨ personas.is_public r = true.
Proof.
  unfold personas.select_using, personas.users_can_view_their_own_persona,
    personas.anyone_can_view_public_personas.
  rewrite orb_true_iff, !bool_decide_eq_true. tauto.
Qed.

(** C1 (as amended). The policies of the store decide row by row and not
    column by column. A public Persona row is visible to every caller, and a
    select returns of a visible row every column it names, the stored
    [elevenlabs_api_key] included. What a caller other than the owner cannot
    do is see a row that is not public, or update a row. The listing's own
    query names [id], [avatar_url] and [agent_id] only, and returns them for
    the rows with the requested visibility that the caller may see. *)
Theorem public_row_readable_whole (uid : option string) (t : gmap string personas.row)
    (k : string) (r : personas.row) :
  t !! k = Some r →
  (personas.is_public r = true →
     ∀ cols where_, where_ k r = true →
       ((λ c, personas.cell c k r) <$> cols) ∈ personas.select uid cols where_ t)
  ∧ (personas.is_public r = true →
       [text (personas.elevenlabs_api_key r)]
         ∈ personas.select uid [personas.c_elevenlabs_api_key] (λ _ _, true) t)
  ∧ (personas.is_public r = false → uid ≠ Some (personas.user_id r) →
       ∀ where_, (k, r) ∉ personas.visible uid where_ t)
  ∧ (uid ≠ Some (personas.user_id r) →
       ∀ now b, personas.update_is_public uid now b k t !! k = Some r)
  ∧ (∀ b l, l ∈ personas.select_listing uid b t ↔
       ∃ k' r', t !! k' = Some r' ∧ personas.select_using uid r' = true
         ∧ personas.is_public r' = b
         ∧ l = {| Listed.id := k'; Listed.avatar_url := personas.avatar_url r';
                  Listed.agent_id := personas.agent_id r' |}).
Proof.
  intros Hr.
  assert (Hsel : personas.is_public r = true →
            ∀ cols where_, where_ k r = true →
              ((λ c, personas.cell c k r) <$> cols) ∈ personas.select uid cols where_ t).
  { intros Hpub cols where_ Hw. unfold personas.select. apply list_elem_of_fmap.
    exists (k, r). split; [done |]. apply elem_of_visible.
    split; [done |]. split; [| done]. apply select_using_spec. by right. }
  split; [done |]. split; [| split; [| split]].
  - intros Hpub. by apply (Hsel Hpub [personas.c_elevenlabs_api_key] (λ _ _, true)).
  - intros Hpriv Hne where_ (_ & Hvis & _)%elem_of_visible.
    apply select_using_spec in Hvis as [? | ?]; congruence.
  - intros Hne now b. rewrite update_is_public_lookup, Hr. cbn.
    unfold personas.update_using. rewrite (bool_decide_eq_false_2 _ Hne).
    by rewrite andb_false_r.
  - intros b l. unfold personas.select_listing. rewrite list_elem_of_fmap. split.
    + intros ([k' r'] & -> & (Hl & Hv & Hb)%elem_of_visible).
      exists k', r'. apply bool_decide_eq_true in Hb. done.
    + intros (k' & r' & Hl & Hv & Hb & ->). exists (k', r'). split; [done |].
      apply elem_of_visible. by rewrite bool_decide_eq_true.
Qed.

(** C1, witness: Ada reads the persona of Grace, API key included. *)
Lemma public_row_readable_whole_witness :
  [text (Some "sk_grace")]
    ∈ personas.select (Some "u1") [personas.c_elevenlabs_api_key] (λ _ _, true)
        Examples.two_personas.
Proof.
  exact (proj1 (proj2 (public_row_readable_whole (Some "u1") Examples.two_personas
                         "p2" Examples.grace_row eq_refl)) eq_refl).
Defined.

(** C1, as stated, fails: a caller who does not own a public row, here
    nobody signed in, selects its [elevenlabs_api_key] and gets it. *)
Lemma public_row_leaks_api_key :
  personas.user_id Examples.grace_row = "u2"
  ∧ personas.select None [personas.c_id; personas.c_elevenlabs_api_key]
      (λ _ r, bool_decide (personas.is_public r = true)) Examples.two_personas
    = [[uuid "p2"; text (Some "sk_grace")]].
Proof. split; [reflexivity |]. vm_compute. reflexivity. Qed.

(** ** What is inserted *)

(** The Persona row of a sign-up run is built from the identity the
    provider returned and the agent the provisioner returned. *)
Lemma SignUp_inserts is_email origin {W} (h : handler W) w s row ans :
  E_personas_insert row ans ∈ trace h (SignUp.handleSubmit is_email origin s) w →
  ∃ r u b a,
    E_signUp (SignUp.credentials origin s) r
      ∈ trace h (SignUp.handleSubmit is_email origin s) w
    ∧ auth_user r = Some u
    ∧ E_invoke "create-agent" b (FunctionsSuccess a)
        ∈ trace h (SignUp.handleSubmit is_email origin s) w
    ∧ row = SignUp.persona_row s u a.
Proof.
  intros Hin.
  destruct (remote_entry_of_register is_email origin h w s (E_personas_insert row ans)
              (mk_is_Some _ _ eq_refl) Hin) as (Ht & _ & Hin').
  destruct (register_inserts origin h w s row ans Hin') as (r & u & b & a & H1 & Hu & H2 & ->).
  exists r, u, b, a. rewrite Ht. repeat split; try done; by do 2 apply list_elem_of_further.
Qed.

(** The Persona row of a create-persona run is built from the session user
    and the agent the provisioner returned. *)
Lemma CreatePersona_inserts {W} (h : handler W) w s row ans :
  E_personas_insert row ans ∈ trace h (CreatePersona.handleSubmit s) w →
  ∃ u b a,
    CreatePersona.user s = Some u
    ∧ E_invoke "create-agent" b (FunctionsSuccess a)
        ∈ trace h (CreatePersona.handleSubmit s) w
    ∧ row = CreatePersona.persona_row s u a.
Proof.
  unfold CreatePersona.handleSubmit, CreatePersona.create_persona,
    CreatePersona.store_persona, trace.
  run_all h; intros Hin; in_trace Hin; simplify_eq;
    eexists _, _, _; (split; [reflexivity | split; [| reflexivity]]);
    repeat constructor.
Qed.

(** A sign-up run whose form passes the local checks, whose identity is
    created and whose agent is returned, updates the profile and inserts
    the Persona row, with the link and the avatar derived from them. *)
Lemma SignUp_insert_made is_email origin {W} (h : handler W) w s r w1 u a w2 upd w3 ins w4 :
  SignUp.violates_constraints is_email s = false →
  h (auth_signUp (SignUp.credentials origin s)) w = (r, w1) →
  auth_error r = None → auth_user r = Some u →
  h (functions_invoke "create-agent" (SignUp.agent_body s)) w1 = (FunctionsSuccess a, w2) →
  h (profiles_update
       {| ProfileUpdate.elevenlabs_agent_id := a;
          ProfileUpdate.elevenlabs_agent_link := SignUp.conversationLink a |} u) w2
    = (upd, w3) →
  h (personas_insert (SignUp.persona_row s u a)) w3 = (ins, w4) →
  E_profiles_update
    {| ProfileUpdate.elevenlabs_agent_id := a;
       ProfileUpdate.elevenlabs_agent_link := SignUp.conversationLink a |} u upd
    ∈ trace h (SignUp.handleSubmit is_email origin s) w
  ∧ E_personas_insert (SignUp.persona_row s u a) ins
      ∈ trace h (SignUp.handleSubmit is_email origin s) w.
Proof.
  intros Hv H1 Herr Huser H2 H3 H4.
  destruct (handleSubmit_cases is_email origin h w s) as [[? _] | (_ & Ht & _)];
    [congruence |].
  rewrite Ht. unfold SignUp.register, SignUp.create_persona, trace.
  run_simpl. rewrite H1. run_simpl. rewrite Herr, Huser. run_simpl.
  rewrite H2. run_simpl. rewrite H3. run_simpl.
  destruct upd; run_simpl; rewrite H4; run_simpl; split; repeat constructor.
Qed.

(** A create-persona run whose form passes the local checks, whose profile
    has both names and whose agent is returned, inserts the Persona row. *)
Lemma CreatePersona_insert_made {W} (h : handler W) w s u p w1 f l a w2 ins w3 :
  trim (CreatePersona.resumeText s) ≠ "" →
  trim (CreatePersona.elevenLabsApiKey s) ≠ "" →
  CreatePersona.user s = Some u →
  h (profiles_select_names u) w = (p, w1) →
  p ≫= names_first_name = Some f → p ≫= names_last_name = Some l → f ≠ "" → l ≠ "" →
  h (functions_invoke "create-agent" (CreatePersona.agent_body s f l)) w1
    = (FunctionsSuccess a, w2) →
  h (personas_insert (CreatePersona.persona_row s u a)) w2 = (ins, w3) →
  E_personas_insert (CreatePersona.persona_row s u a) ins
    ∈ trace h (CreatePersona.handleSubmit s) w.
Proof.
  intros Hr Hk Hu H1 Hf Hl Hfne Hlne H2 H3.
  destruct (create_persona_progress h w s u Hr Hk Hu p w1 H1) as (f' & l' & Hf' & Hl' & P).
  { unfold CreatePersona.has_names. rewrite Hf, Hl, !truthy_Some.
    by rewrite !bool_decide_eq_false_2. }
  assert (f' = f) as -> by congruence. assert (l' = l) as -> by congruence.
  destruct (P _ _ H2) as (_ & P2). by destruct (P2 a eq_refl _ _ H3) as (? & _).
Qed.

(** C2. The conversation link is the fixed prefix followed by the agent id
    and the avatar URL is the fixed prefix, the identity id and the fixed
    suffix, by the same two templates in both entry points. Either entry
    point, once the agent is returned, inserts a Persona row, and the row
    it inserts carries the link derived from the agent id the provisioner
    returned and the avatar derived from the id of the identity; the
    sign-up entry point also writes that link into the profile. For the
    agent [abc123] and the identity [u1] they are the two URLs of the
    specification. *)
Theorem derived_links (a u : string) :
  SignUp.conversationLink a = "https://elevenlabs.io/app/talk-to?agent_id=" +:+ a
  ∧ SignUp.avatarUrl u
    = "https://api.dicebear.com/7.x/pixel-art/svg?seed=" +:+ u +:+ "&scale=100"
  ∧ CreatePersona.conversationLink a = SignUp.conversationLink a
  ∧ CreatePersona.avatarUrl u = SignUp.avatarUrl u
  ∧ SignUp.conversationLink "abc123" = "https://elevenlabs.io/app/talk-to?agent_id=abc123"
  ∧ SignUp.avatarUrl "u1" = "https://api.dicebear.com/7.x/pixel-art/svg?seed=u1&scale=100"
  ∧ (∀ is_email origin W (h : handler W) w s row ans,
       E_personas_insert row ans ∈ trace h (SignUp.handleSubmit is_email origin s) w →
       ∃ r u' b a',
         E_signUp (SignUp.credentials origin s) r
           ∈ trace h (SignUp.handleSubmit is_email origin s) w
         ∧ auth_user r = Some u'
         ∧ E_invoke "create-agent" b (FunctionsSuccess a')
             ∈ trace h (SignUp.handleSubmit is_email origin s) w
         ∧ PersonaInsert.user_id row = u'
         ∧ PersonaInsert.agent_id row = Some a'
         ∧ PersonaInsert.conversation_link row
           = Some ("https://elevenlabs.io/app/talk-to?agent_id=" +:+ a')
         ∧ PersonaInsert.avatar_url row
           = Some ("https://api.dicebear.com/7.x/pixel-art/svg?seed=" +:+ u' +:+ "&scale=100"))
  ∧ (∀ W (h : handler W) w s row ans,
       E_personas_insert row ans ∈ trace h (CreatePersona.handleSubmit s) w →
       ∃ u' b a',
         CreatePersona.user s = Some u'
         ∧ E_invoke "create-agent" b (FunctionsSuccess a')
             ∈ trace h (CreatePersona.handleSubmit s) w
         ∧ PersonaInsert.user_id row = u'
         ∧ PersonaInsert.agent_id row = Some a'
         ∧ PersonaInsert.conversation_link row
           = Some ("https://elevenlabs.io/app/talk-to?agent_id=" +:+ a')
         ∧ PersonaInsert.avatar_url row
           = Some ("https://api.dicebear.com/7.x/pixel-art/svg?seed=" +:+ u' +:+ "&scale=100"))
  ∧ (∀ is_email origin W (h : handler W) w s r w1 u' a' w2 upd w3 ins w4,
       SignUp.violates_constraints is_email s = false →
       h (auth_signUp (SignUp.credentials origin s)) w = (r, w1) →
       auth_error r = None → auth_user r = Some u' →
       h (functions_invoke "create-agent" (SignUp.agent_body s)) w1
         = (FunctionsSuccess a', w2) →
       h (profiles_update
            {| ProfileUpdate.elevenlabs_agent_id := a';
               ProfileUpdate.elevenlabs_agent_link :=
                 "https://elevenlabs.io/app/talk-to?agent_id=" +:+ a' |} u') w2
         = (upd, w3) →
       h (personas_insert (SignUp.persona_row s u' a')) w3 = (ins, w4) →
       E_profiles_update
         {| ProfileUpdate.elevenlabs_agent_id := a';
            ProfileUpdate.elevenlabs_agent_link :=
              "https://elevenlabs.io/app/talk-to?agent_id=" +:+ a' |} u' upd
         ∈ trace h (SignUp.handleSubmit is_email origin s) w
       ∧ E_personas_insert (SignUp.persona_row s u' a') ins
           ∈ trace h (SignUp.handleSubmit is_email origin s) w
       ∧ PersonaInsert.conversation_link (SignUp.persona_row s u' a')
         = Some ("https://elevenlabs.io/app/talk-to?agent_id=" +:+ a')
       ∧ PersonaInsert.avatar_url (SignUp.persona_row s u' a')
         = Some ("https://api.dicebear.com/7.x/pixel-art/svg?seed=" +:+ u' +:+ "&scale=100"))
  ∧ (∀ W (h : handler W) w s u' p w1 f l a' w2 ins w3,
       trim (CreatePersona.resumeText s) ≠ "" →
       trim (CreatePersona.elevenLabsApiKey s) ≠ "" →
       CreatePersona.user s = Some u' →
       h (profiles_select_names u') w = (p, w1) →
       p ≫= names_first_name = Some f → p ≫= names_last_name = Some l →
       f ≠ "" → l ≠ "" →
       h (functions_invoke "create-agent" (CreatePersona.agent_body s f l)) w1
         = (FunctionsSuccess a', w2) →
       h (personas_insert (CreatePersona.persona_row s u' a')) w2 = (ins, w3) →
       E_personas_insert (CreatePersona.persona_row s u' a') ins
         ∈ trace h (CreatePersona.handleSubmit s) w
       ∧ PersonaInsert.conversation_link (CreatePersona.persona_row s u' a')
         = Some ("https://elevenlabs.io/app/talk-to?agent_id=" +:+ a')
       ∧ PersonaInsert.avatar_url (CreatePersona.persona_row s u' a')
         = Some ("https://api.dicebear.com/7.x/pixel-art/svg?seed=" +:+ u' +:+ "&scale=100")).
Proof.
  do 6 (split; [reflexivity |]). split; [| split; [| split]].
  - intros is_email origin W h w s row ans Hin.
    destruct (SignUp_inserts is_email origin h w s row ans Hin)
      as (r & u' & b & a' & H1 & Hu & H2 & ->).
    by exists r, u', b, a'.
  - intros W h w s row ans Hin.
    destruct (CreatePersona_inserts h w s row ans Hin) as (u' & b & a' & Hu & H2 & ->).
    by exists u', b, a'.
  - intros is_email origin W h w s r w1 u' a' w2 upd w3 ins w4 Hv H1 He Hu H2 H3 H4.
    destruct (SignUp_insert_made is_email origin h w s r w1 u' a' w2 upd w3 ins w4
                Hv H1 He Hu H2 H3 H4) as [Hupd Hins].
    done.
  - intros W h w s u' p w1 f l a' w2 ins w3 Hr Hk Hu H1 Hf Hl Hfne Hlne H2 H3.
    split; [| done].
    exact (CreatePersona_insert_made h w s u' p w1 f l a' w2 ins w3
             Hr Hk Hu H1 Hf Hl Hfne Hlne H2 H3).
Qed.

(** C2, witness: the rows inserted when Ada signs up on a fresh backend,
    and when she creates her persona on a backend that knows her. *)
Lemma derived_links_witness :
  (∃ ins, E_personas_insert (SignUp.persona_row Examples.ada "u1" "abc123") ins
            ∈ trace backend (SignUp.handleSubmit Examples.has_at Examples.origin Examples.ada)
                (Examples.fresh (Examples.accepting "u1") (Examples.agent "abc123")))
  ∧ PersonaInsert.conversation_link (SignUp.persona_row Examples.ada "u1" "abc123")
    = Some "https://elevenlabs.io/app/talk-to?agent_id=abc123"
  ∧ (∃ ins, E_personas_insert
              (CreatePersona.persona_row Examples.ada_persona_form "u1" "abc123") ins
            ∈ trace backend (CreatePersona.handleSubmit Examples.ada_persona_form)
                Examples.ada_signed_in)
  ∧ PersonaInsert.avatar_url
      (CreatePersona.persona_row Examples.ada_persona_form "u1" "abc123")
    = Some "https://api.dicebear.com/7.x/pixel-art/svg?seed=u1&scale=100".
Proof.
  destruct (derived_links "abc123" "u1") as (_ & _ & _ & _ & _ & _ & _ & _ & PS & PC).
  destruct (PS Examples.has_at Examples.origin Backend backend
              (Examples.fresh (Examples.accepting "u1") (Examples.agent "abc123"))
              Examples.ada _ _ "u1" "abc123" _ _ _ _ _
              eq_refl eq_refl eq_refl eq_refl eq_refl eq_refl eq_refl)
    as (_ & HinS & HlinkS & _).
  assert (Hr : trim (CreatePersona.resumeText Examples.ada_persona_form) ≠ "")
    by (vm_compute; discriminate).
  assert (Hk : trim (CreatePersona.elevenLabsApiKey Examples.ada_persona_form) ≠ "")
    by (vm_compute; discriminate).
  assert (Hf : "Ada" ≠ "") by discriminate.
  assert (Hl : "Lovelace" ≠ "") by discriminate.
  destruct (PC Backend backend Examples.ada_signed_in Examples.ada_persona_form
              "u1" _ _ "Ada" "Lovelace" "abc123" _ _ _
              Hr Hk eq_refl eq_refl eq_refl eq_refl Hf Hl eq_refl eq_refl)
    as (HinC & _ & HavC).
  split; [eexists; exact HinS |]. split; [exact HlinkS |].
  split; [eexists; exact HinC | exact HavC].
Defined.

(** C10. The sign-up form starts with the public visibility selected and
    the create-persona form with the private one. For a user who never
    touches the selection, the sign-up entry point, once the agent is
    returned, therefore inserts a Persona with [is_public = true], and the
    create-persona entry point inserts one with [is_public = false]; the
    store keeps the value it is given, although the default of the column,
    which applies when the column is left out of an insert, is false. *)
Theorem default_visibility (now : nat) :
  SignUp.isPublic SignUp.initial = "public"
  ∧ (∀ u, CreatePersona.isPublic (CreatePersona.initial u) = "private")
  ∧ personas.is_public_default = false
  ∧ (∀ is_email origin W (h : handler W) w s row ans,
       SignUp.isPublic s = SignUp.isPublic SignUp.initial →
       E_personas_insert row ans ∈ trace h (SignUp.handleSubmit is_email origin s) w →
       PersonaInsert.is_public row = Some true
       ∧ personas.is_public (personas.new_row now row) = true)
  ∧ (∀ W (h : handler W) w s row ans,
       CreatePersona.isPublic s
         = CreatePersona.isPublic (CreatePersona.initial (CreatePersona.user s)) →
       E_personas_insert row ans ∈ trace h (CreatePersona.handleSubmit s) w →
       PersonaInsert.is_public row = Some false
       ∧ personas.is_public (personas.new_row now row) = false)
  ∧ (∀ v, PersonaInsert.is_public v = None →
       personas.is_public (personas.new_row now v) = false)
  ∧ (∀ is_email origin W (h : handler W) w s r w1 u a w2 upd w3 ins w4,
       SignUp.isPublic s = SignUp.isPublic SignUp.initial →
       SignUp.violates_constraints is_email s = false →
       h (auth_signUp (SignUp.credentials origin s)) w = (r, w1) →
       auth_error r = None → auth_user r = Some u →
       h (functions_invoke "create-agent" (SignUp.agent_body s)) w1
         = (FunctionsSuccess a, w2) →
       h (profiles_update
            {| ProfileUpdate.elevenlabs_agent_id := a;
               ProfileUpdate.elevenlabs_agent_link := SignUp.conversationLink a |} u) w2
         = (upd, w3) →
       h (personas_insert (SignUp.persona_row s u a)) w3 = (ins, w4) →
       E_personas_insert (SignUp.persona_row s u a) ins
         ∈ trace h (SignUp.handleSubmit is_email origin s) w
       ∧ PersonaInsert.is_public (SignUp.persona_row s u a) = Some true
       ∧ personas.is_public (personas.new_row now (SignUp.persona_row s u a)) = true)
  ∧ (∀ W (h : handler W) w s u p w1 f l a w2 ins w3,
       CreatePersona.isPublic s
         = CreatePersona.isPublic (CreatePersona.initial (CreatePersona.user s)) →
       trim (CreatePersona.resumeText s) ≠ "" →
       trim (CreatePersona.elevenLabsApiKey s) ≠ "" →
       CreatePersona.user s = Some u →
       h (profiles_select_names u) w = (p, w1) →
       p ≫= names_first_name = Some f → p ≫= names_last_name = Some l →
       f ≠ "" → l ≠ "" →
       h (functions_invoke "create-agent" (CreatePersona.agent_body s f l)) w1
         = (FunctionsSuccess a, w2) →
       h (personas_insert (CreatePersona.persona_row s u a)) w2 = (ins, w3) →
       E_personas_insert (CreatePersona.persona_row s u a) ins
         ∈ trace h (CreatePersona.handleSubmit s) w
       ∧ PersonaInsert.is_public (CreatePersona.persona_row s u a) = Some false
       ∧ personas.is_public (personas.new_row now (CreatePersona.persona_row s u a))
         = false).
Proof.
  do 3 (split; [done |]). split; [| split; [| split; [| split]]].
  - intros is_email origin W h w s row ans Hs Hin.
    destruct (SignUp_inserts is_email origin h w s row ans Hin)
      as (r & u' & b & a' & _ & _ & _ & ->).
    unfold personas.new_row. cbn. by rewrite Hs.
  - intros W h w s row ans Hs Hin.
    destruct (CreatePersona_inserts h w s row ans Hin) as (u' & b & a' & _ & _ & ->).
    unfold personas.new_row. cbn. by rewrite Hs.
  - intros v Hv. unfold personas.new_row. cbn. by rewrite Hv.
  - intros is_email origin W h w s r w1 u a w2 upd w3 ins w4 Hs Hv H1 He Hu H2 H3 H4.
    destruct (SignUp_insert_made is_email origin h w s r w1 u a w2 upd w3 ins w4
                Hv H1 He Hu H2 H3 H4) as [_ Hins].
    split; [exact Hins |]. unfold personas.new_row. cbn. by rewrite Hs.
  - intros W h w s u p w1 f l a w2 ins w3 Hs Hr Hk Hu H1 Hf Hl Hfne Hlne H2 H3.
    split; [exact (CreatePersona_insert_made h w s u p w1 f l a w2 ins w3
                     Hr Hk Hu H1 Hf Hl Hfne Hlne H2 H3) |].
    unfold personas.new_row. cbn. by rewrite Hs.
Qed.

(** C10, witness: without touching the selection, Ada signs up on a fresh
    backend and the row inserted for her is public; she creates her persona
    on a backend that knows her and the row inserted for her is private. *)
Lemma default_visibility_witness :
  (∃ ins, E_personas_insert (SignUp.persona_row Examples.ada "u1" "abc123") ins
            ∈ trace backend (SignUp.handleSubmit Examples.has_at Examples.origin Examples.ada)
                (Examples.fresh (Examples.accepting "u1") (Examples.agent "abc123")))
  ∧ PersonaInsert.is_public (SignUp.persona_row Examples.ada "u1" "abc123") = Some true
  ∧ (∃ ins, E_personas_insert
              (CreatePersona.persona_row Examples.ada_persona_form "u1" "abc123") ins
            ∈ trace backend (CreatePersona.handleSubmit Examples.ada_persona_form)
                Examples.ada_signed_in)
  ∧ PersonaInsert.is_public
      (CreatePersona.persona_row Examples.ada_persona_form "u1" "abc123") = Some false.
Proof.
  destruct (default_visibility 1003) as (_ & _ & _ & _ & _ & _ & PS & PC).
  destruct (PS Examples.has_at Examples.origin Backend backend
              (Examples.fresh (Examples.accepting "u1") (Examples.agent "abc123"))
              Examples.ada _ _ "u1" "abc123" _ _ _ _ _
              eq_refl eq_refl eq_refl eq_refl eq_refl eq_refl eq_refl eq_refl)
    as (HinS & HpubS & _).
  assert (Hr : trim (CreatePersona.resumeText Examples.ada_persona_form) ≠ "")
    by (vm_compute; discriminate).
  assert (Hk : trim (CreatePersona.elevenLabsApiKey Examples.ada_persona_form) ≠ "")
    by (vm_compute; discriminate).
  assert (Hf : "Ada" ≠ "") by discriminate.
  assert (Hl : "Lovelace" ≠ "") by discriminate.
  destruct (PC Backend backend Examples.ada_signed_in Examples.ada_persona_form
              "u1" _ _ "Ada" "Lovelace" "abc123" _ _ _
              eq_refl Hr Hk eq_refl eq_refl eq_refl eq_refl Hf Hl eq_refl eq_refl)
    as (HinC & HpubC & _).
  split; [eexists; exact HinS |]. split; [exact HpubS |].
  split; [eexists; exact HinC | exact HpubC].
Defined.

(** * Further properties of the code *)

(** ** Trimming *)

Lemma trimEnd_head c s :
  is_white_space c = false → ∃ s', trimEnd (String c s) = String c s'.
Proof.
  intros Hc. cbn. destruct (trimEnd s); [rewrite Hc |]; eauto.
Qed.

Lemma trimStart_blank s : blank s = true → trimStart s = "".
Proof.
  induction s as [| c s IH]; [done |]. cbn. intros [Hc Hs]%andb_true_iff.
  rewrite Hc. by apply IH.
Qed.

Lemma trimStart_not_blank s :
  blank s = false → ∃ c s', trimStart s = String c s' ∧ is_white_space c = false.
Proof.
  induction s as [| c s IH]; [done |]. cbn.
  destruct (is_white_space c) eqn:Hc; cbn; [apply IH | eauto].
Qed.

(** [trim] gives the empty string exactly on the strings made of white
    space only. *)
Lemma trim_empty_iff s : trim s = "" ↔ blank s = true.
Proof.
  unfold trim. split.
  - intros Ht. destruct (blank s) eqn:Hb; [done |].
    destruct (trimStart_not_blank s Hb) as (c & s' & Hs & Hc). rewrite Hs in Ht.
    destruct (trimEnd_head c s' Hc) as [s'' Hs'']. congruence.
  - intros Hb. by rewrite trimStart_blank.
Qed.

(** ** Sign-up: the remaining paths *)

Lemma errors_after_cons_other u t :
  (∀ m, u ≠ setErrors m) →
  SignUp.errors_after (t ++ [E_ui u]) = SignUp.errors_after t.
Proof.
  intros Hu. unfold SignUp.errors_after. rewrite effects_app, foldl_app. cbn.
  destruct u; try done. by destruct (Hu errors).
Qed.

Section SignUpMore.

Variable is_email : string → bool.
Variable origin : string.

Local Abbreviation handleSubmit := (SignUp.handleSubmit is_email origin).
Local Abbreviation register := (SignUp.register origin).
Local Abbreviation credentials := (SignUp.credentials origin).

(** [register] never touches the [errors] of the form. *)
Lemma register_errors {W} (h : handler W) w s :
  SignUp.errors_after (E_ui preventDefault :: E_ui (setErrors ∅) :: trace h (register s) w)
  = ∅.
Proof.
  unfold SignUp.register, SignUp.create_persona, trace. run_all h; reflexivity.
Qed.

(** X1. A sign-up submission reaches the network exactly when it violates
    none of the local constraints, and its first call is then the sign-up
    call, with the email and password of the form, its names as metadata and
    the origin of the page followed by a slash as redirect target. *)
Theorem signup_calls_iff_valid {W} (h : handler W) (w : W) (s : SignUp.State) :
  let t := trace h (handleSubmit s) w in
  (network t ≠ [] ↔ SignUp.violates_constraints is_email s = false)
  ∧ (SignUp.violates_constraints is_email s = false →
       ∃ rest, network t =
         auth_signUp {| cred_email := SignUp.email s; cred_password := SignUp.password s;
                        cred_first_name := SignUp.firstName s;
                        cred_last_name := SignUp.lastName s;
                        cred_emailRedirectTo := origin +:+ "/" |} :: rest).
Proof.
  intros t. subst t.
  assert (Hfirst : SignUp.violates_constraints is_email s = false →
            ∃ rest, network (trace h (handleSubmit s) w) =
                      auth_signUp (credentials s) :: rest).
  { intros Hv. destruct (handleSubmit_cases is_email origin h w s) as [[? _] | (_ & Ht & _)];
      [congruence |].
    rewrite Ht. unfold SignUp.register, trace. run_simpl. eexists. reflexivity. }
  split; [| done]. split.
  - intros Hn. destruct (SignUp.violates_constraints is_email s) eqn:Hv; [| done].
    destruct Hn. by apply signup_violation_is_local_aux.
  - intros Hv. destruct (Hfirst Hv) as [rest Hrest]. by rewrite Hrest.
Qed.

(** X2. After every run of the sign-up handler the [errors] of the form
    have an entry under a field of the schema exactly when that field is
    rejected, and no entry under any other key. *)
Theorem signup_errors_exact {W} (h : handler W) (w : W) (s : SignUp.State) :
  let errors := SignUp.errors_after (trace h (handleSubmit s) w) in
  (is_Some (errors !! "email") ↔ is_email (SignUp.email s) = false)
  ∧ (is_Some (errors !! "password") ↔ (String.length (SignUp.password s) < 8)%nat)
  ∧ (is_Some (errors !! "firstName") ↔ SignUp.firstName s = "")
  ∧ (is_Some (errors !! "lastName") ↔ SignUp.lastName s = "")
  ∧ (∀ k, k ≠ "email" → k ≠ "password" → k ≠ "firstName" → k ≠ "lastName" →
       errors !! k = None).
Proof.
  intros errors.
  assert (Herr : errors = SignUp.fieldErrors
            (SignUp.signUpSchema is_email (SignUp.email s) (SignUp.password s)
               (SignUp.firstName s) (SignUp.lastName s))).
  { subst errors.
    destruct (decide (SignUp.signUpSchema is_email (SignUp.email s) (SignUp.password s)
                        (SignUp.firstName s) (SignUp.lastName s) = [])) as [Hs | Hs].
    - rewrite Hs. change (SignUp.fieldErrors []) with (∅ : gmap string string).
      destruct (handleSubmit_cases is_email origin h w s) as [[Hv _] | (_ & Ht & _)].
      + destruct (violation_cases is_email s Hv) as [? | [[_ Hr] | (_ & Hr & Hk)]]; [done | |].
        * by rewrite handleSubmit_resume_required.
        * by rewrite handleSubmit_api_key_required.
      + rewrite Ht. apply register_errors.
    - by rewrite handleSubmit_schema_failure. }
  rewrite Herr. clear Herr errors.
  unfold SignUp.signUpSchema. rewrite !length_lt_1.
  destruct (is_email _); destruct (Nat.ltb_spec (String.length (SignUp.password s)) 8);
    repeat case_bool_decide; cbn.
  all: repeat split; try (intros [? Hl]; by vm_compute in Hl); try done; try lia;
    try (intros; by eexists).
  all: intros k Hk1 Hk2 Hk3 Hk4; unfold SignUp.fieldErrors; cbn;
    rewrite ?lookup_insert_ne by done; apply lookup_empty.
Qed.

(** X3. When the identity provider answers the sign-up call with neither
    an error nor a user, the run stops with the notice to check the email
    and goes to the home page; no agent is provisioned and nothing is
    written. *)
Theorem signup_pending_confirmation {W} (h : handler W) (w : W) (s : SignUp.State)
    (c : SignUpCredentials) (r : AuthResponse) :
  let t := trace h (handleSubmit s) w in
  E_signUp c r ∈ t → auth_error r = None → auth_user r = None →
  t = [E_ui preventDefault; E_ui (setErrors ∅); E_ui (setIsLoading true);
       E_signUp (credentials s) r; E_ui (setIsLoading false);
       E_ui (toast {| title := "Check your email";
                      description := "Please verify your email to complete registration.";
                      variant := None |});
       E_ui (navigate "/")]
  ∧ network t = [auth_signUp (credentials s)].
Proof.
  intros t Hin He Hu. subst t.
  destruct (remote_entry_of_register is_email origin h w s (E_signUp c r)
              (mk_is_Some _ _ eq_refl) Hin) as (Ht & _ & Hin').
  rewrite Ht. clear Ht Hin. revert Hin' He Hu.
  unfold SignUp.register, SignUp.create_persona, trace.
  run_all h; intros Hin Herr Huser; in_trace Hin; simplify_eq; done.
Qed.

(** X4. The remote calls of a sign-up run are an initial part of the four
    steps, in their order: sign-up, agent provisioning, profile update,
    persona insert. No step is made twice and none is made after a later
    one. *)
Theorem signup_steps_in_order {W} (h : handler W) (w : W) (s : SignUp.State) :
  ∃ u a,
    network (trace h (handleSubmit s) w) `prefix_of`
      [auth_signUp (credentials s);
       functions_invoke "create-agent" (SignUp.agent_body s);
       profiles_update
         {| ProfileUpdate.elevenlabs_agent_id := a;
            ProfileUpdate.elevenlabs_agent_link := SignUp.conversationLink a |} u;
       personas_insert (SignUp.persona_row s u a)].
Proof.
  destruct (handleSubmit_cases is_email origin h w s) as [[_ Hn] | (_ & Ht & _)].
  - rewrite Hn. exists "", "". apply prefix_nil.
  - rewrite Ht. unfold SignUp.register, SignUp.create_persona, trace.
    run_all h;
      lazymatch goal with
      | |- context [E_personas_insert (SignUp.persona_row _ ?u ?a)] => exists u, a
      | |- _ => exists "", ""
      end; cbn; by eexists.
Qed.

(** X5. A failed profile update does not abort the sign-up: the error is
    written to the console and the Persona insert is made all the same,
    with the row it would have had. *)
Theorem signup_profile_update_best_effort {W} (h : handler W) (w : W) (s : SignUp.State)
    (patch : ProfileUpdate.t) (u : string) (e : Error) :
  let t := trace h (handleSubmit s) w in
  E_profiles_update patch u (Some e) ∈ t →
  E_ui (console_error "Profile update error:" e) ∈ t
  ∧ ∃ ans, E_personas_insert
             (SignUp.persona_row s u (ProfileUpdate.elevenlabs_agent_id patch)) ans ∈ t.
Proof.
  intros t Hin. subst t.
  destruct (remote_entry_of_register is_email origin h w s (E_profiles_update patch u (Some e))
              (mk_is_Some _ _ eq_refl) Hin) as (Ht & _ & Hin').
  rewrite Ht. clear Ht Hin. revert Hin'.
  unfold SignUp.register, SignUp.create_persona, trace.
  run_all h; intros Hin; in_trace Hin; simplify_eq;
    (split; [repeat constructor | eexists; cbn; repeat constructor]).
Qed.

(** X6. The submit handler of the sign-up form goes to the account page
    exactly when the store has acknowledged the Persona insert. The page
    has a second way to the account page, which is not part of the
    handler: its session effect goes there whenever there is a session,
    with no remote call and whatever has been stored. *)
Theorem signup_account_iff_stored {W} (h : handler W) (w : W) (s : SignUp.State) :
  let t := trace h (handleSubmit s) w in
  (navigate "/account" ∈ effects t ↔ ∃ row, E_personas_insert row None ∈ t)
  ∧ (∀ (session : bool) (w' : W),
       let t' := trace h (SignUpPage.sessionEffect session) w' in
       (navigate "/account" ∈ effects t' ↔ session = true)
       ∧ network t' = []
       ∧ world_after h (SignUpPage.sessionEffect session) w' = w').
Proof.
  intros t. subst t. split.
  - destruct (handleSubmit_cases is_email origin h w s) as [[Hv Hn] | (_ & Ht & _)].
    + destruct (violation_cases is_email s Hv) as [Hs | [[Hs Hr] | (Hs & Hr & Hk)]];
        [rewrite handleSubmit_schema_failure by done
        | rewrite handleSubmit_resume_required by done
        | rewrite handleSubmit_api_key_required by done];
        (split; [intros Hin; cbn in Hin; in_trace Hin | intros [row Hin]; in_trace Hin]).
    + rewrite Ht. unfold SignUp.register, SignUp.create_persona, trace.
      run_all h; cbn [effects omap ui_of remote_of];
        (split; [intros Hin | intros [row Hin]]); cbn in Hin; in_trace Hin;
        try (eexists; repeat constructor); try (cbn; repeat constructor).
  - intros [] w'; cbn; (split; [| done]); split; intros Hin; try done.
    + repeat constructor.
    + in_trace Hin.
Qed.

(** X8. A sign-up run shows the toast of a failed persona creation exactly
    when the provisioner or the Persona insert has answered with an error.
    The toast is destructive, and its description is the message of that
    error, or the sentence [An unexpected error occurred.] when the message
    is empty; so it is never empty. *)
Theorem signup_error_described {W} (h : handler W) (w : W) (s : SignUp.State) :
  let t := trace h (handleSubmit s) w in
  let reported (e : Error) :=
    {| title := "Error Creating Persona";
       description := if bool_decide (message e = "")
                      then "An unexpected error occurred." else message e;
       variant := Some "destructive" |} in
  (∀ tst, toast tst ∈ effects t → title tst = "Error Creating Persona" →
     description tst ≠ "" ∧ variant tst = Some "destructive"
     ∧ ∃ e, tst = reported e
            ∧ ((∃ n b, E_invoke n b (FunctionsFailure e) ∈ t)
               ∨ (∃ row, E_personas_insert row (Some e) ∈ t)))
  ∧ (∀ n b e, E_invoke n b (FunctionsFailure e) ∈ t → toast (reported e) ∈ effects t)
  ∧ (∀ row e, E_personas_insert row (Some e) ∈ t → toast (reported e) ∈ effects t)
  ∧ (∀ e, message e = "" →
       description (reported e) = "An unexpected error occurred.").
Proof.
  intros t reported. subst t reported.
  assert (Hor : ∀ m, or_else m "An unexpected error occurred." ≠ "").
  { intros m. unfold or_else. rewrite truthy_Some. by case_bool_decide. }
  assert (Hor' : ∀ m, or_else m "An unexpected error occurred."
                      = if bool_decide (m = "") then "An unexpected error occurred." else m).
  { intros m. unfold or_else, truthy. by case_bool_decide. }
  split; [| split; [| split]].
  - destruct (handleSubmit_cases is_email origin h w s) as [[Hv Hn] | (_ & Ht & _)].
    + destruct (violation_cases is_email s Hv) as [Hs | [[Hs Hr] | (Hs & Hr & Hk)]];
        [rewrite handleSubmit_schema_failure by done
        | rewrite handleSubmit_resume_required by done
        | rewrite handleSubmit_api_key_required by done];
        intros tst Hin Htitle; cbn in Hin; in_trace Hin; by simplify_eq.
    + rewrite Ht. unfold SignUp.register, SignUp.create_persona, trace.
      run_all h; cbn [effects omap ui_of remote_of]; intros tst Hin Htitle; cbn in Hin;
        in_trace Hin; simplify_eq; cbn in Htitle; try discriminate Htitle;
        (split; [apply Hor |]); (split; [done |]); eexists;
        (split; [by rewrite Hor' |]);
        first [ solve [left; do 2 eexists; repeat constructor]
              | solve [right; eexists; repeat constructor] ].
  - intros n b e Hin.
    destruct (remote_entry_of_register is_email origin h w s (E_invoke n b (FunctionsFailure e))
                (mk_is_Some _ _ eq_refl) Hin) as (Ht & _ & Hin').
    rewrite Ht. clear Ht Hin. revert Hin'. rewrite <- Hor'.
    unfold SignUp.register, SignUp.create_persona, trace.
    run_all h; intros Hin; in_trace Hin; simplify_eq; cbn; repeat constructor.
  - intros row e Hin.
    destruct (remote_entry_of_register is_email origin h w s (E_personas_insert row (Some e))
                (mk_is_Some _ _ eq_refl) Hin) as (Ht & _ & Hin').
    rewrite Ht. clear Ht Hin. revert Hin'. rewrite <- Hor'.
    unfold SignUp.register, SignUp.create_persona, trace.
    run_all h; intros Hin; in_trace Hin; simplify_eq; cbn; repeat constructor.
  - intros e He. cbn. by rewrite bool_decide_eq_true_2.
Qed.

End SignUpMore.

(** ** Create persona: the remaining paths *)

(** X9. The create-persona form is checked before anything is sent: a
    résumé made of white space only, an API key made of white space only,
    or the absence of a signed-in user stops the run with a destructive
    toast, without any remote call and without the loading state being
    entered. *)
Theorem create_persona_local_checks {W} (h : handler W) (w : W) (s : CreatePersona.State) :
  blank (CreatePersona.resumeText s) = true
  ∨ blank (CreatePersona.elevenLabsApiKey s) = true
  ∨ CreatePersona.user s = None →
  let t := trace h (CreatePersona.handleSubmit s) w in
  network t = [] ∧ world_after h (CreatePersona.handleSubmit s) w = w
  ∧ (∀ b, setIsLoading b ∉ effects t)
  ∧ ∃ tst, effects t = [preventDefault; toast tst] ∧ variant tst = Some "destructive"
      ∧ title tst =
          if blank (CreatePersona.resumeText s) then "Resume Required"
          else if blank (CreatePersona.elevenLabsApiKey s) then "API Key Required"
          else "Not Authenticated".
Proof.
  intros Hbad t. subst t.
  assert (Hb : ∀ x, truthy (Some (trim x)) = negb (blank x)).
  { intros x. rewrite truthy_Some. destruct (blank x) eqn:Hx.
    - by rewrite bool_decide_eq_true_2 by by apply trim_empty_iff.
    - rewrite bool_decide_eq_false_2; [done |]. rewrite trim_empty_iff. congruence. }
  assert (Hnet : network (trace h (CreatePersona.handleSubmit s) w) = []
            ∧ (∀ b, setIsLoading b ∉ effects (trace h (CreatePersona.handleSubmit s) w))
            ∧ ∃ tst, effects (trace h (CreatePersona.handleSubmit s) w)
                     = [preventDefault; toast tst]
                ∧ variant tst = Some "destructive"
                ∧ title tst =
                    if blank (CreatePersona.resumeText s) then "Resume Required"
                    else if blank (CreatePersona.elevenLabsApiKey s) then "API Key Required"
                    else "Not Authenticated").
  { unfold CreatePersona.handleSubmit, trace. rewrite !Hb.
    destruct (blank (CreatePersona.resumeText s)); cbn;
      [| destruct (blank (CreatePersona.elevenLabsApiKey s)); cbn;
         [| destruct (CreatePersona.user s); [by destruct Hbad as [? | [? | ?]] |]; cbn]].
    all: split; [done |]; split; [| by eexists].
    all: intros b Hin; in_trace Hin. }
  destruct Hnet as (Hn & Hl & Ht). split; [done |].
  split; [by apply no_network_same_world | done].
Qed.

(** X9, witness: an API key of three spaces. *)
Lemma create_persona_local_checks_witness :
  network (trace backend
             (CreatePersona.handleSubmit
                (CreatePersona.setElevenLabsApiKey "   " Examples.ada_persona_form))
             Examples.ada_signed_in) = [].
Proof.
  refine (proj1 (create_persona_local_checks backend Examples.ada_signed_in
                   (CreatePersona.setElevenLabsApiKey "   " Examples.ada_persona_form) _)).
  right. left. reflexivity.
Defined.

(** X10. The remote calls of a create-persona run are an initial part of
    its four steps, in their order: read of the profile names, agent
    provisioning, persona insert, profile update. *)
Theorem create_persona_steps_in_order {W} (h : handler W) (w : W) (s : CreatePersona.State) :
  ∃ u f l a,
    network (trace h (CreatePersona.handleSubmit s) w) `prefix_of`
      [profiles_select_names u;
       functions_invoke "create-agent" (CreatePersona.agent_body s f l);
       personas_insert (CreatePersona.persona_row s u a);
       profiles_update
         {| ProfileUpdate.elevenlabs_agent_id := a;
            ProfileUpdate.elevenlabs_agent_link := CreatePersona.conversationLink a |} u].
Proof.
  unfold CreatePersona.handleSubmit, CreatePersona.create_persona,
    CreatePersona.store_persona, trace.
  run_all h;
    lazymatch goal with
    | |- context [E_personas_insert (CreatePersona.persona_row _ ?u ?a)] =>
        lazymatch goal with
        | |- context [E_invoke _ (CreatePersona.agent_body _ ?f ?l)] => exists u, f, l, a
        end
    | |- context [E_invoke _ (CreatePersona.agent_body _ ?f ?l)] =>
        lazymatch goal with
        | |- context [E_profiles_select ?u] => exists u, f, l, ""
        end
    | |- context [E_profiles_select ?u] => exists u, "", "", ""
    | |- _ => exists "", "", "", ""
    end; cbn; by eexists.
Qed.

(** X7. Neither form is left loading: after every run of the sign-up
    handler and of the create-persona handler the loading state is off. *)
Theorem forms_stop_loading {W} (h : handler W) (w : W) :
  (∀ is_email origin s,
     isLoading_after (trace h (SignUp.handleSubmit is_email origin s) w) = false)
  ∧ (∀ s, isLoading_after (trace h (CreatePersona.handleSubmit s) w) = false).
Proof.
  split.
  - intros is_email origin s.
    destruct (handleSubmit_cases is_email origin h w s) as [[Hv Hn] | (_ & Ht & _)].
    + destruct (violation_cases is_email s Hv) as [Hs | [[Hs Hr] | (Hs & Hr & Hk)]];
        [rewrite handleSubmit_schema_failure by done
        | rewrite handleSubmit_resume_required by done
        | rewrite handleSubmit_api_key_required by done]; reflexivity.
    + rewrite Ht. unfold SignUp.register, SignUp.create_persona, trace.
      run_all h; reflexivity.
  - intros s. unfold CreatePersona.handleSubmit, CreatePersona.create_persona,
      CreatePersona.store_persona, trace.
    run_all h; reflexivity.
Qed.

(** X3, witness: a provider that asks for a confirmation. *)
Lemma signup_pending_confirmation_witness :
  network (trace backend (SignUp.handleSubmit Examples.has_at Examples.origin Examples.ada)
             (Examples.fresh MoreExamples.pending (Examples.agent "abc123")))
  = [auth_signUp (SignUp.credentials Examples.origin Examples.ada)].
Proof.
  refine (proj2 (signup_pending_confirmation Examples.has_at Examples.origin backend
                   (Examples.fresh MoreExamples.pending (Examples.agent "abc123"))
                   Examples.ada (SignUp.credentials Examples.origin Examples.ada)
                   (MoreExamples.pending (SignUp.credentials Examples.origin Examples.ada))
                   _ eq_refl eq_refl)).
  vm_compute. repeat constructor.
Defined.

(** X5, witness: the profile update is refused, the persona is inserted. *)
Lemma signup_profile_update_best_effort_witness :
  ∃ ans, E_personas_insert (SignUp.persona_row Examples.ada "u1" "abc123") ans
           ∈ trace MoreExamples.profile_update_fails
               (SignUp.handleSubmit Examples.has_at Examples.origin Examples.ada) ().
Proof.
  refine (proj2 (signup_profile_update_best_effort Examples.has_at Examples.origin
                   MoreExamples.profile_update_fails () Examples.ada
                   {| ProfileUpdate.elevenlabs_agent_id := "abc123";
                      ProfileUpdate.elevenlabs_agent_link :=
                        SignUp.conversationLink "abc123" |}
                   "u1" {| message := "permission denied" |} _)).
  vm_compute. repeat constructor.
Defined.

(** X8, witness: a provisioner that fails without a message; the run
    reports the fixed sentence. *)
Lemma signup_error_described_witness :
  toast {| title := "Error Creating Persona";
           description := "An unexpected error occurred.";
           variant := Some "destructive" |}
    ∈ effects (trace backend (SignUp.handleSubmit Examples.has_at Examples.origin Examples.ada)
                 (Examples.fresh (Examples.accepting "u1") MoreExamples.silent_failure)).
Proof.
  refine (proj1 (proj2 (signup_error_described Examples.has_at Examples.origin backend
                   (Examples.fresh (Examples.accepting "u1") MoreExamples.silent_failure)
                   Examples.ada))
            "create-agent" (SignUp.agent_body Examples.ada) {| message := "" |} _).
  vm_compute. repeat constructor.
Defined.

(** ** The store: inserts, ownership, anonymous callers *)

Lemma profiles_update_lookup uid now patch eq_id (t : gmap string profiles.row) k :
  profiles.update uid now patch eq_id t !! k =
  (λ r, if bool_decide (k = eq_id) && profiles.update_using uid k
        then {| profiles.first_name := profiles.first_name r;
                profiles.last_name := profiles.last_name r;
                profiles.elevenlabs_agent_id := Some (ProfileUpdate.elevenlabs_agent_id patch);
                profiles.elevenlabs_agent_link :=
                  Some (ProfileUpdate.elevenlabs_agent_link patch);
                profiles.created_at := profiles.created_at r;
                profiles.updated_at := now |}
        else r) <$> t !! k.
Proof.
  unfold profiles.update. rewrite map_lookup_imap.
  destruct (t !! k); [| done]. cbn. by destruct (_ && _).
Qed.

Lemma personas_insert_cases (uid : option string) (now : nat) (new_id : string)
    (users : gset string) (v : PersonaInsert.t) (t : gmap string personas.row) :
  match personas.insert uid now new_id users v t with
  | inr t' =>
      uid = Some (PersonaInsert.user_id v) ∧ PersonaInsert.user_id v ∈ users
      ∧ t !! new_id = None
      ∧ t' !! new_id =
          Some {| personas.user_id := PersonaInsert.user_id v;
                  personas.is_public := default false (PersonaInsert.is_public v);
                  personas.elevenlabs_api_key := PersonaInsert.elevenlabs_api_key v;
                  personas.agent_id := PersonaInsert.agent_id v;
                  personas.conversation_link := PersonaInsert.conversation_link v;
                  personas.avatar_url := PersonaInsert.avatar_url v;
                  personas.created_at := now; personas.updated_at := now |}
      ∧ (∀ k, k ≠ new_id → t' !! k = t !! k)
  | inl _ =>
      uid ≠ Some (PersonaInsert.user_id v) ∨ PersonaInsert.user_id v ∉ users
      ∨ is_Some (t !! new_id)
  end.
Proof.
  unfold personas.insert, personas.insert_with_check. cbn.
  repeat case_bool_decide; cbn; try tauto.
  split; [done |]. split; [done |]. split; [by apply eq_None_not_Some |].
  split; [apply lookup_insert_eq |]. intros k Hk. by apply lookup_insert_ne.
Qed.

(** X11. An insert into [personas] succeeds exactly when the caller is the
    identity named by [user_id], that identity exists and the generated id
    is not taken. It then adds one row under the generated id, made of the
    columns given, the default for [is_public] when it is left out and the
    current time for both timestamps, and leaves every other row as it was;
    a refused insert comes with an error and no table. *)
Theorem personas_insert_spec (uid : option string) (now : nat) (new_id : string)
    (users : gset string) (v : PersonaInsert.t) (t : gmap string personas.row) :
  match personas.insert uid now new_id users v t with
  | inr t' =>
      uid = Some (PersonaInsert.user_id v) ∧ PersonaInsert.user_id v ∈ users
      ∧ t !! new_id = None
      ∧ t' !! new_id =
          Some {| personas.user_id := PersonaInsert.user_id v;
                  personas.is_public := default false (PersonaInsert.is_public v);
                  personas.elevenlabs_api_key := PersonaInsert.elevenlabs_api_key v;
                  personas.agent_id := PersonaInsert.agent_id v;
                  personas.conversation_link := PersonaInsert.conversation_link v;
                  personas.avatar_url := PersonaInsert.avatar_url v;
                  personas.created_at := now; personas.updated_at := now |}
      ∧ (∀ k, k ≠ new_id → t' !! k = t !! k)
  | inl _ =>
      uid ≠ Some (PersonaInsert.user_id v) ∨ PersonaInsert.user_id v ∉ users
      ∨ is_Some (t !! new_id)
  end.
Proof. apply personas_insert_cases. Qed.

(** X12. No write changes or creates a row of another identity: an update
    of the visibility, whatever its filter, leaves the personas the caller
    does not own as they are; an update of a profile leaves the profiles of
    the others as they are; an insert for another identity is refused; and
    an accepted insert keeps every row that was there. *)
Theorem writes_respect_ownership (uid : option string) (now : nat) :
  (∀ b eq_id (t : gmap string personas.row) k r,
     t !! k = Some r → uid ≠ Some (personas.user_id r) →
     personas.update_is_public uid now b eq_id t !! k = Some r)
  ∧ (∀ patch eq_id (t : gmap string profiles.row) k r,
       t !! k = Some r → uid ≠ Some k →
       profiles.update uid now patch eq_id t !! k = Some r)
  ∧ (∀ new_id users v t,
       uid ≠ Some (PersonaInsert.user_id v) →
       ∃ e, personas.insert uid now new_id users v t = inl e)
  ∧ (∀ new_id users v t t',
       personas.insert uid now new_id users v t = inr t' →
       ∀ k r, t !! k = Some r → t' !! k = Some r).
Proof.
  split; [| split; [| split]].
  - intros b eq_id t k r Hr Hne. rewrite update_is_public_lookup, Hr. cbn.
    unfold personas.update_using. rewrite (bool_decide_eq_false_2 _ Hne).
    by rewrite andb_false_r.
  - intros patch eq_id t k r Hr Hne. rewrite profiles_update_lookup, Hr. cbn.
    unfold profiles.update_using. rewrite (bool_decide_eq_false_2 _ Hne).
    by rewrite andb_false_r.
  - intros new_id users v t Hne. unfold personas.insert, personas.insert_with_check. cbn.
    rewrite (bool_decide_eq_false_2 _ Hne). cbn. eauto.
  - intros new_id users v t t' Hins k r Hr.
    pose proof (personas_insert_cases uid now new_id users v t) as Hspec.
    rewrite Hins in Hspec. destruct Hspec as (_ & _ & Hfresh & _ & Hother).
    rewrite Hother; [done |]. intros ->. congruence.
Qed.

(** X13. A caller who is not signed in reads of [personas] exactly the
    public rows, reads no profile, and changes nothing: its updates leave
    both tables as they are and its inserts are refused. *)
Theorem anonymous_access (now : nat) (t : gmap string personas.row)
    (pt : gmap string profiles.row) :
  (∀ k r where_, (k, r) ∈ personas.visible None where_ t ↔
     t !! k = Some r ∧ personas.is_public r = true ∧ where_ k r = true)
  ∧ (∀ eq_id, profiles.select_names_single None eq_id pt = None)
  ∧ (∀ b eq_id, personas.update_is_public None now b eq_id t = t)
  ∧ (∀ patch eq_id, profiles.update None now patch eq_id pt = pt)
  ∧ (∀ new_id users v, ∃ e, personas.insert None now new_id users v t = inl e).
Proof.
  split; [| split; [| split; [| split]]].
  - intros k r where_. rewrite elem_of_visible, select_using_spec.
    split; [intros (? & [? | ?] & ?); done | intros (? & ? & ?); auto].
  - intros eq_id. unfold profiles.select_names_single. by destruct (pt !! eq_id).
  - intros b eq_id. apply map_eq. intros k. rewrite update_is_public_lookup.
    destruct (t !! k); [| done]. cbn. by rewrite andb_false_r.
  - intros patch eq_id. apply map_eq. intros k. rewrite profiles_update_lookup.
    destruct (pt !! k); [| done]. cbn. by rewrite andb_false_r.
  - intros new_id users v. unfold personas.insert, personas.insert_with_check. cbn. eauto.
Qed.

(** X14. An update of a profile changes, of the row of the caller named by
    its filter, the agent id, the agent link and [updated_at], and nothing
    else: the names and the creation time of that row stay, no row appears
    or disappears, and a filter that names another identity changes
    nothing. *)
Theorem profiles_update_frame (u : string) (now : nat) (patch : ProfileUpdate.t)
    (eq_id : string) (t : gmap string profiles.row) :
  let t' := profiles.update (Some u) now patch eq_id t in
  dom t' = dom t
  ∧ (eq_id ≠ u → t' = t)
  ∧ (∀ k, k ≠ u → t' !! k = t !! k)
  ∧ (∀ r, eq_id = u → t !! u = Some r →
       t' !! u = Some {| profiles.first_name := profiles.first_name r;
                         profiles.last_name := profiles.last_name r;
                         profiles.elevenlabs_agent_id :=
                           Some (ProfileUpdate.elevenlabs_agent_id patch);
                         profiles.elevenlabs_agent_link :=
                           Some (ProfileUpdate.elevenlabs_agent_link patch);
                         profiles.created_at := profiles.created_at r;
                         profiles.updated_at := now |}).
Proof.
  intros t'. subst t'.
  assert (Hother : ∀ k, k ≠ u ∨ eq_id ≠ u →
            profiles.update (Some u) now patch eq_id t !! k = t !! k).
  { intros k Hk. rewrite profiles_update_lookup. destruct (t !! k); [| done]. cbn.
    unfold profiles.update_using. repeat case_bool_decide; simplify_eq; cbn; try done.
    by destruct Hk. }
  split; [| split; [| split]].
  - apply set_eq. intros k. rewrite !elem_of_dom, profiles_update_lookup.
    by rewrite fmap_is_Some.
  - intros Hne. apply map_eq. intros k. apply Hother. by right.
  - intros k Hk. apply Hother. by left.
  - intros r -> Hr. rewrite profiles_update_lookup, Hr. cbn.
    unfold profiles.update_using. by rewrite !bool_decide_eq_true_2.
Qed.

(** ** The listing against the store *)

Lemma backend_listing (w : Backend) (s0 : PublicPersonas.State) :
  PublicPersonas.personas
    (PublicPersonas.displayed s0 (trace backend PublicPersonas.fetchPublicPersonas w))
  = PublicPersonas.formattedPersonas
      (Some (personas.select_listing (auth_uid w) true (personas_table w))).
Proof.
  by rewrite fetchPublicPersonas_run.
Qed.

Lemma elem_of_select_listing uid b (t : gmap string personas.row) l :
  l ∈ personas.select_listing uid b t ↔
  ∃ k r, t !! k = Some r ∧ personas.select_using uid r = true
    ∧ personas.is_public r = b
    ∧ l = {| Listed.id := k; Listed.avatar_url := personas.avatar_url r;
             Listed.agent_id := personas.agent_id r |}.
Proof.
  unfold personas.select_listing. rewrite list_elem_of_fmap. split.
  - intros ([k r] & -> & (Hl & Hv & Hb)%elem_of_visible).
    exists k, r. apply bool_decide_eq_true in Hb. done.
  - intros (k & r & Hl & Hv & Hb & ->). exists (k, r). split; [done |].
    apply elem_of_visible. by rewrite bool_decide_eq_true.
Qed.

Lemma backend_listing_elem (w : Backend) (s0 : PublicPersonas.State)
    (q : PublicPersona.t) :
  q ∈ PublicPersonas.personas
        (PublicPersonas.displayed s0 (trace backend PublicPersonas.fetchPublicPersonas w))
  ↔ ∃ k r a,
      personas_table w !! k = Some r ∧ personas.is_public r = true
      ∧ personas.agent_id r = Some a ∧ a ≠ ""
      ∧ q = {| PublicPersona.id := k;
               PublicPersona.avatar_url := personas.avatar_url r;
               PublicPersona.agent_id := Some a;
               PublicPersona.conversation_link :=
                 "https://elevenlabs.io/app/talk-to?agent_id=" +:+ a |}.
Proof.
  rewrite backend_listing, elem_of_formattedPersonas. cbn [default]. split.
  - intros (row & a & Hrow & Ha & Hne & ->).
    apply elem_of_select_listing in Hrow as (k & r & Hl & _ & Hpub & ->).
    by exists k, r, a.
  - intros (k & r & a & Hl & Hpub & Ha & Hne & ->).
    exists {| Listed.id := k; Listed.avatar_url := personas.avatar_url r;
              Listed.agent_id := personas.agent_id r |}, a.
    split; [| by rewrite Ha].
    apply elem_of_select_listing.
    exists k, r. split; [done |]. split; [| done]. apply select_using_spec. by right.
Qed.

(** X15. Against the store, the listing displays exactly the personas that
    are public and have an agent id that is neither null nor empty, each
    under its id and with its avatar, whoever the caller is and whether or
    not somebody is signed in; a private persona is listed to nobody, its
    owner included. *)
Theorem listing_shows_public_personas (w : Backend) (s0 : PublicPersonas.State)
    (q : PublicPersona.t) :
  q ∈ PublicPersonas.personas
        (PublicPersonas.displayed s0 (trace backend PublicPersonas.fetchPublicPersonas w))
  ↔ ∃ k r a,
      personas_table w !! k = Some r ∧ personas.is_public r = true
      ∧ personas.agent_id r = Some a ∧ a ≠ ""
      ∧ q = {| PublicPersona.id := k;
               PublicPersona.avatar_url := personas.avatar_url r;
               PublicPersona.agent_id := Some a;
               PublicPersona.conversation_link :=
                 "https://elevenlabs.io/app/talk-to?agent_id=" +:+ a |}.
Proof. apply backend_listing_elem. Qed.

(** X16. The visibility toggle decides the listing: after the owner of a
    persona has saved a selection, the persona is listed exactly when the
    selection saved is the public one and the persona has an agent id that
    is neither null nor empty. *)
Theorem toggle_controls_listing (w : Backend) (s : Account.State) (p : Persona.t)
    (r : personas.row) (v : string) (s0 : PublicPersonas.State) :
  Account.persona s = Some p →
  personas_table w !! Persona.id p = Some r →
  auth_uid w = Some (personas.user_id r) →
  let w' := (Account.save v (s, w)).2 in
  let listed := PublicPersonas.personas
                  (PublicPersonas.displayed s0
                     (trace backend PublicPersonas.fetchPublicPersonas w')) in
  (∃ q, q ∈ listed ∧ PublicPersona.id q = Persona.id p)
  ↔ v = "public" ∧ truthy (personas.agent_id r) = true.
Proof.
  intros Hp Hr Hown w' listed. subst listed w'.
  destruct (save_spec v s w p Hp) as [Hw _]. cbn zeta in Hw. rewrite Hw. clear Hw.
  assert (Hrow : personas_table
            (tick (with_personas
                     (personas.update_is_public (auth_uid w) (clock w)
                        (bool_decide (v = "public")) (Persona.id p) (personas_table w)) w))
            !! Persona.id p
          = Some (personas.update_updated_at_column (clock w)
                    {| personas.user_id := personas.user_id r;
                       personas.is_public := bool_decide (v = "public");
                       personas.elevenlabs_api_key := personas.elevenlabs_api_key r;
                       personas.agent_id := personas.agent_id r;
                       personas.conversation_link := personas.conversation_link r;
                       personas.avatar_url := personas.avatar_url r;
                       personas.created_at := personas.created_at r;
                       personas.updated_at := personas.updated_at r |})).
  { cbn [tick with_personas personas_table]. rewrite update_is_public_lookup, Hr. cbn.
    unfold personas.update_using.
    by rewrite (bool_decide_eq_true_2 _ Hown), (bool_decide_eq_true_2 _ (eq_refl (Persona.id p))). }
  split.
  - intros (q & (k & r' & a & Hl & Hpub & Ha & Hne & ->)%backend_listing_elem & Hid).
    cbn in Hid. subst k. rewrite Hrow in Hl. simplify_eq. cbn in *.
    apply bool_decide_eq_true in Hpub. rewrite Ha. cbn.
    by rewrite bool_decide_eq_false_2.
  - intros [Hv Ht]. destruct (personas.agent_id r) as [a|] eqn:Ha; [| done].
    cbn in Ht. apply negb_true_iff, bool_decide_eq_false in Ht.
    exists {| PublicPersona.id := Persona.id p;
              PublicPersona.avatar_url := personas.avatar_url r;
              PublicPersona.agent_id := Some a;
              PublicPersona.conversation_link :=
                "https://elevenlabs.io/app/talk-to?agent_id=" +:+ a |}.
    split; [| reflexivity]. apply backend_listing_elem.
    eexists (Persona.id p), _, a. split; [exact Hrow |]. cbn.
    by rewrite bool_decide_eq_true_2 by done.
Qed.

(** X16, witness: Ada makes her persona public, and it is listed. *)
Lemma toggle_controls_listing_witness :
  let w' := (Account.save "public" (Examples.ada_account, Examples.ada_with_persona)).2 in
  ∃ q, q ∈ PublicPersonas.personas
             (PublicPersonas.displayed PublicPersonas.initial
                (trace backend PublicPersonas.fetchPublicPersonas w'))
       ∧ PublicPersona.id q = "p1".
Proof.
  exact (proj2 (toggle_controls_listing Examples.ada_with_persona Examples.ada_account _
                  Examples.ada_row "public" PublicPersonas.initial eq_refl eq_refl eq_refl)
           (conj eq_refl eq_refl)).
Defined.

(** ** Sign-up against the store *)

Lemma signup_success_world (is_email : string → bool) (origin : string)
    (w : Backend) (s : SignUp.State) (u a : string) :
  SignUp.violates_constraints is_email s = false →
  identity_provider w (SignUp.credentials origin s)
    = {| auth_user := Some u; auth_session := true; auth_error := None |} →
  u ∉ users w →
  provisioner w "create-agent" (SignUp.agent_body s) = FunctionsSuccess a →
  personas_table w !! gen_random_uuid w (uuid_count w) = None →
  let t := trace backend (SignUp.handleSubmit is_email origin s) w in
  let w' := world_after backend (SignUp.handleSubmit is_email origin s) w in
  navigate "/account" ∈ effects t
  ∧ u ∈ users w' ∧ auth_uid w' = Some u
  ∧ personas_table w' =
      <[gen_random_uuid w (uuid_count w) :=
          {| personas.user_id := u;
             personas.is_public := bool_decide (SignUp.isPublic s = "public");
             personas.elevenlabs_api_key := Some (SignUp.elevenLabsApiKey s);
             personas.agent_id := Some a;
             personas.conversation_link :=
               Some ("https://elevenlabs.io/app/talk-to?agent_id=" +:+ a);
             personas.avatar_url :=
               Some ("https://api.dicebear.com/7.x/pixel-art/svg?seed=" +:+ u +:+ "&scale=100");
             personas.created_at := clock w + 3;
             personas.updated_at := clock w + 3 |}]> (personas_table w)
  ∧ profiles_table w' !! u =
      Some {| profiles.first_name := Some (SignUp.firstName s);
              profiles.last_name := Some (SignUp.lastName s);
              profiles.elevenlabs_agent_id := Some a;
              profiles.elevenlabs_agent_link :=
                Some ("https://elevenlabs.io/app/talk-to?agent_id=" +:+ a);
              profiles.created_at := clock w;
              profiles.updated_at := clock w + 2 |}.
Proof.
  intros Hv Hidp Hnew Hprov Hfresh t w'. subst t w'.
  replace (clock w + 3) with (S (S (S (clock w)))) by lia.
  replace (clock w + 2) with (S (S (clock w))) by lia.
  destruct (handleSubmit_cases is_email origin backend w s) as [[? _] | (_ & Ht & Hw)];
    [congruence |].
  rewrite Ht, Hw. clear Ht Hw.
  unfold SignUp.register, SignUp.create_persona, trace, world_after. run_simpl.
  assert (H1 : backend (auth_signUp (SignUp.credentials origin s)) w =
            ({| auth_user := Some u; auth_session := true; auth_error := None |},
             tick {| users := {[u]} ∪ users w;
                     profiles_table :=
                       profiles.handle_new_user (clock w) u
                         (Some (SignUp.firstName s)) (Some (SignUp.lastName s))
                         (profiles_table w);
                     personas_table := personas_table w; auth_uid := Some u;
                     clock := clock w; gen_random_uuid := gen_random_uuid w;
                     uuid_count := uuid_count w;
                     identity_provider := identity_provider w;
                     provisioner := provisioner w |})).
  { unfold backend, signUp. rewrite Hidp. cbn. by rewrite bool_decide_eq_false_2. }
  rewrite H1. run_simpl. cbn [auth_error auth_user]. run_simpl.
  set (w1 := tick _).
  assert (H2 : backend (functions_invoke "create-agent" (SignUp.agent_body s)) w1
               = (FunctionsSuccess a, tick w1)).
  { unfold backend, invoke. subst w1. cbn. by rewrite Hprov. }
  rewrite H2. run_simpl.
  set (patch := {| ProfileUpdate.elevenlabs_agent_id := a;
                   ProfileUpdate.elevenlabs_agent_link := SignUp.conversationLink a |}).
  assert (H3 : backend (profiles_update patch u) (tick w1) =
            (None, tick (with_profiles
                           (profiles.update (Some u) (S (S (clock w))) patch u
                              (profiles_table w1)) (tick w1)))).
  { reflexivity. }
  rewrite H3. run_simpl.
  set (w3 := tick (with_profiles _ _)).
  assert (H4 : backend (personas_insert (SignUp.persona_row s u a)) w3 =
            (None, tick (next_uuid (with_personas
                     (<[gen_random_uuid w (uuid_count w) :=
                          personas.new_row (S (S (S (clock w)))) (SignUp.persona_row s u a)]>
                        (personas_table w)) w3)))).
  { unfold backend, personas.insert, personas.insert_with_check. subst w3 w1. cbn.
    rewrite Hfresh. rewrite (bool_decide_eq_true_2 (Some u = Some u)) by done.
    rewrite (bool_decide_eq_true_2 (u ∈ _)) by set_solver. reflexivity. }
  rewrite H4. run_simpl.
  split; [cbn; repeat constructor |]. subst w3 w1. cbn.
  split; [set_solver |]. split; [done |]. split; [done |].
  rewrite profiles_update_lookup. unfold profiles.handle_new_user.
  rewrite lookup_insert_eq. cbn. unfold profiles.update_using.
  by rewrite !bool_decide_eq_true_2.
Qed.

(** X17. Against the store, a sign-up whose form passes the local checks,
    for which the identity provider creates a new identity with a session
    and the provisioner returns an agent, ends on the account page with a
    linked pair: the Persona row of the new identity, under the generated
    id, carrying the agent id, the two derived links, the API key and the
    visibility selected, and the Profile of the identity, carrying the names
    of the form, the agent id and the same conversation link. *)
Theorem signup_success_linked_pair (is_email : string → bool) (origin : string)
    (w : Backend) (s : SignUp.State) (u a : string) :
  SignUp.violates_constraints is_email s = false →
  identity_provider w (SignUp.credentials origin s)
    = {| auth_user := Some u; auth_session := true; auth_error := None |} →
  u ∉ users w →
  provisioner w "create-agent" (SignUp.agent_body s) = FunctionsSuccess a →
  personas_table w !! gen_random_uuid w (uuid_count w) = None →
  let t := trace backend (SignUp.handleSubmit is_email origin s) w in
  let w' := world_after backend (SignUp.handleSubmit is_email origin s) w in
  navigate "/account" ∈ effects t
  ∧ u ∈ users w' ∧ auth_uid w' = Some u
  ∧ personas_table w' =
      <[gen_random_uuid w (uuid_count w) :=
          {| personas.user_id := u;
             personas.is_public := bool_decide (SignUp.isPublic s = "public");
             personas.elevenlabs_api_key := Some (SignUp.elevenLabsApiKey s);
             personas.agent_id := Some a;
             personas.conversation_link :=
               Some ("https://elevenlabs.io/app/talk-to?agent_id=" +:+ a);
             personas.avatar_url :=
               Some ("https://api.dicebear.com/7.x/pixel-art/svg?seed=" +:+ u +:+ "&scale=100");
             personas.created_at := clock w + 3;
             personas.updated_at := clock w + 3 |}]> (personas_table w)
  ∧ profiles_table w' !! u =
      Some {| profiles.first_name := Some (SignUp.firstName s);
              profiles.last_name := Some (SignUp.lastName s);
              profiles.elevenlabs_agent_id := Some a;
              profiles.elevenlabs_agent_link :=
                Some ("https://elevenlabs.io/app/talk-to?agent_id=" +:+ a);
              profiles.created_at := clock w;
              profiles.updated_at := clock w + 2 |}.
Proof. apply signup_success_world. Qed.

(** X17, witness: Ada signs up on a fresh backend. *)
Lemma signup_success_linked_pair_witness :
  let w' := world_after backend
              (SignUp.handleSubmit Examples.has_at Examples.origin Examples.ada)
              (Examples.fresh (Examples.accepting "u1") (Examples.agent "abc123")) in
  "u1" ∈ users w' ∧ auth_uid w' = Some "u1".
Proof.
  intros w'.
  pose proof (signup_success_linked_pair Examples.has_at Examples.origin
                (Examples.fresh (Examples.accepting "u1") (Examples.agent "abc123"))
                Examples.ada "u1" "abc123" eq_refl eq_refl)
    as Hthm.
  destruct Hthm as (_ & Hu & Ha & _).
  - set_solver.
  - reflexivity.
  - reflexivity.
  - split; [exact Hu | exact Ha].
Defined.

(** X19. An identity created through the sign-up form passes the name
    check of the create-persona entry point: the names the form requires to
    be non-empty are the names the trigger copies into the profile, which
    the identity can read back. *)
Theorem signup_names_satisfy_create_persona (is_email : string → bool) (origin : string)
    (w : Backend) (s : SignUp.State) (u a : string) :
  SignUp.violates_constraints is_email s = false →
  identity_provider w (SignUp.credentials origin s)
    = {| auth_user := Some u; auth_session := true; auth_error := None |} →
  u ∉ users w →
  provisioner w "create-agent" (SignUp.agent_body s) = FunctionsSuccess a →
  personas_table w !! gen_random_uuid w (uuid_count w) = None →
  let w' := world_after backend (SignUp.handleSubmit is_email origin s) w in
  profiles.select_names_single (auth_uid w') u (profiles_table w')
    = Some {| names_first_name := Some (SignUp.firstName s);
              names_last_name := Some (SignUp.lastName s) |}
  ∧ CreatePersona.has_names
      (profiles.select_names_single (auth_uid w') u (profiles_table w')) = true.
Proof.
  intros Hv Hidp Hnew Hprov Hfresh w'.
  destruct (signup_success_world is_email origin w s u a Hv Hidp Hnew Hprov Hfresh)
    as (_ & _ & Huid & _ & Hprof).
  cbn zeta in Huid, Hprof. subst w'.
  unfold profiles.select_names_single. rewrite Hprof, Huid. cbn.
  unfold profiles.select_using. rewrite bool_decide_eq_true_2 by done.
  split; [done |]. unfold CreatePersona.has_names. cbn.
  unfold SignUp.violates_constraints in Hv.
  repeat (apply orb_false_iff in Hv as [Hv ?]).
  by repeat match goal with Hb : bool_decide _ = false |- _ => rewrite Hb; clear Hb end.
Qed.

(** X19, witness: Ada after her sign-up. *)
Lemma signup_names_satisfy_create_persona_witness :
  let w' := world_after backend
              (SignUp.handleSubmit Examples.has_at Examples.origin Examples.ada)
              (Examples.fresh (Examples.accepting "u1") (Examples.agent "abc123")) in
  CreatePersona.has_names
    (profiles.select_names_single (auth_uid w') "u1" (profiles_table w')) = true.
Proof.
  intros w'.
  refine (proj2 (signup_names_satisfy_create_persona Examples.has_at Examples.origin
                   (Examples.fresh (Examples.accepting "u1") (Examples.agent "abc123"))
                   Examples.ada "u1" "abc123" eq_refl eq_refl _ eq_refl eq_refl)).
  set_solver.
Defined.

(** ** The account page *)

(** X18. A save on the account page makes at most one remote call, leaves
    the selection as it is and ends with the saving state off; without a
    persona loaded it does nothing at all. The persona displayed afterwards
    is the one displayed before, with the same id, time stamp, avatar and
    link, and with a visibility that is either the one displayed before or
    the one selected. *)
Theorem visibility_save_settles {W} (h : handler W) (w : W) (s : Account.State) :
  let t := trace h (Account.handleVisibilitySave s) w in
  let s' := Account.displayed s t in
  (length (network t) ≤ 1)%nat
  ∧ Account.visibility s' = Account.visibility s
  ∧ (Account.persona s = None → t = [] ∧ s' = s)
  ∧ (∀ p, Account.persona s = Some p →
       Account.saving s' = false
       ∧ network t = [personas_update_is_public
                        (bool_decide (Account.visibility s = "public")) (Persona.id p)]
       ∧ ∃ p', Account.persona s' = Some p'
           ∧ Persona.id p' = Persona.id p
           ∧ Persona.updated_at p' = Persona.updated_at p
           ∧ Persona.avatar_url p' = Persona.avatar_url p
           ∧ Persona.conversation_link p' = Persona.conversation_link p
           ∧ (Persona.is_public p' = Persona.is_public p
              ∨ Persona.is_public p' = bool_decide (Account.visibility s = "public"))).
Proof.
  intros t s'. subst s' t.
  destruct (Account.persona s) as [p|] eqn:Hp.
  - destruct (handleVisibilitySave_run h w s p Hp) as [_ Ht]. cbn zeta in Ht. rewrite Ht.
    destruct (h _ w).1 as [e|]; cbn; rewrite ?Hp.
    + split; [lia |]. split; [done |]. split; [done |]. intros ? [= <-].
      split; [done |]. split; [done |]. exists p. repeat split; auto.
    + split; [lia |]. split; [done |]. split; [done |]. intros ? [= <-].
      split; [done |]. split; [done |]. eexists. split; [reflexivity |]. cbn.
      repeat split; auto.
  - unfold Account.handleVisibilitySave. rewrite Hp. cbn.
    split; [lia |]. split; [done |]. split; [| done]. intros _. split; [done |].
    by destruct s.
Qed.

(** ** Create persona against the store *)

(** X20. Against the store, a create-persona run of a signed-in identity
    whose profile has both names, whose form passes the local checks and
    for which the provisioner returns an agent, stores the Persona row of
    the identity under the generated id, with the agent id, the derived
    links, the API key and the visibility selected, then records the agent
    id and the same conversation link in the Profile, whose names it keeps,
    and schedules the move to the account page. *)
Theorem create_persona_success_linked_pair (w : Backend) (s : CreatePersona.State)
    (u f l a : string) (pr : profiles.row) :
  trim (CreatePersona.resumeText s) ≠ "" →
  trim (CreatePersona.elevenLabsApiKey s) ≠ "" →
  CreatePersona.user s = Some u →
  auth_uid w = Some u → u ∈ users w →
  profiles_table w !! u = Some pr →
  profiles.first_name pr = Some f → profiles.last_name pr = Some l → f ≠ "" → l ≠ "" →
  provisioner w "create-agent" (CreatePersona.agent_body s f l) = FunctionsSuccess a →
  personas_table w !! gen_random_uuid w (uuid_count w) = None →
  let t := trace backend (CreatePersona.handleSubmit s) w in
  let w' := world_after backend (CreatePersona.handleSubmit s) w in
  navigate_later "/account" 2000 ∈ effects t
  ∧ personas_table w' =
      <[gen_random_uuid w (uuid_count w) :=
          {| personas.user_id := u;
             personas.is_public := bool_decide (CreatePersona.isPublic s = "public");
             personas.elevenlabs_api_key := Some (CreatePersona.elevenLabsApiKey s);
             personas.agent_id := Some a;
             personas.conversation_link :=
               Some ("https://elevenlabs.io/app/talk-to?agent_id=" +:+ a);
             personas.avatar_url :=
               Some ("https://api.dicebear.com/7.x/pixel-art/svg?seed=" +:+ u +:+ "&scale=100");
             personas.created_at := clock w + 2;
             personas.updated_at := clock w + 2 |}]> (personas_table w)
  ∧ profiles_table w' !! u =
      Some {| profiles.first_name := Some f; profiles.last_name := Some l;
              profiles.elevenlabs_agent_id := Some a;
              profiles.elevenlabs_agent_link :=
                Some ("https://elevenlabs.io/app/talk-to?agent_id=" +:+ a);
              profiles.created_at := profiles.created_at pr;
              profiles.updated_at := clock w + 3 |}.
Proof.
  intros Hr Hk Hu Huid Huser Hpr Hf Hl Hfne Hlne Hprov Hfresh t w'. subst t w'.
  replace (clock w + 3) with (S (S (S (clock w)))) by lia.
  replace (clock w + 2) with (S (S (clock w))) by lia.
  rewrite (CreatePersona_handleSubmit_checked s u Hr Hk Hu).
  unfold CreatePersona.create_persona, CreatePersona.store_persona, trace, world_after.
  run_simpl.
  assert (H1 : backend (profiles_select_names u) w =
            (Some {| names_first_name := Some f; names_last_name := Some l |}, tick w)).
  { unfold backend, profiles.select_names_single, profiles.select_using.
    rewrite Huid, Hpr, Hf, Hl. by rewrite bool_decide_eq_true_2. }
  rewrite H1. run_simpl. cbn [mbind option_bind names_first_name names_last_name].
  rewrite !truthy_Some, !bool_decide_eq_false_2 by done. cbn [negb orb]. run_simpl.
  assert (H2 : backend (functions_invoke "create-agent" (CreatePersona.agent_body s f l))
                 (tick w) = (FunctionsSuccess a, tick (tick w))).
  { unfold backend, invoke. cbn. by rewrite Hprov. }
  rewrite H2. run_simpl.
  assert (H3 : backend (personas_insert (CreatePersona.persona_row s u a)) (tick (tick w)) =
            (None, tick (next_uuid (with_personas
                     (<[gen_random_uuid w (uuid_count w) :=
                          personas.new_row (S (S (clock w))) (CreatePersona.persona_row s u a)]>
                        (personas_table w)) (tick (tick w)))))).
  { unfold backend, personas.insert, personas.insert_with_check. cbn.
    rewrite Hfresh, Huid. rewrite (bool_decide_eq_true_2 (Some u = Some u)) by done.
    by rewrite (bool_decide_eq_true_2 (u ∈ _)) by done. }
  rewrite H3. run_simpl.
  match goal with
  | |- context [backend (profiles_update ?p ?i) ?w0] =>
      assert (H4 : backend (profiles_update p i) w0 =
                (None, tick (with_profiles
                               (profiles.update (auth_uid w0) (clock w0) p i
                                  (profiles_table w0)) w0))) by reflexivity;
      rewrite H4
  end.
  run_simpl. split; [cbn; repeat constructor |]. cbn. split; [done |].
  rewrite profiles_update_lookup, Hpr, Huid. cbn. unfold profiles.update_using.
  by rewrite !bool_decide_eq_true_2, Hf, Hl.
Qed.

(** X20, witness: Ada creates her persona on a backend that knows her. *)
Lemma create_persona_success_linked_pair_witness :
  navigate_later "/account" 2000
    ∈ effects (trace backend (CreatePersona.handleSubmit Examples.ada_persona_form)
                 Examples.ada_signed_in).
Proof.
  refine (proj1 (create_persona_success_linked_pair Examples.ada_signed_in
                   Examples.ada_persona_form "u1" "Ada" "Lovelace" "abc123" _
                   _ _ eq_refl eq_refl _ eq_refl eq_refl eq_refl _ _ eq_refl eq_refl)).
  - vm_compute. discriminate.
  - vm_compute. discriminate.
  - set_solver.
  - discriminate.
  - discriminate.
Defined.


